(** * AI CMI Statement Extractor: a shallow embedding of the pipeline

    The development follows the three source files of the repository:
    - the extraction client ([extractDataFromFile], services/geminiService),
    - the application shell in its two versions (the shell of [src/App.tsx]
      and the later shell with [processFile], drag and drop and
      [resetState]),
    - the spreadsheet export ([handleDownloadExcel]), identical in both
      shells.

    JavaScript strings are sequences of UTF-16 code units, numbers are
    described by the exact decimal value of the literal they were read from
    (the Number itself is the IEEE-754 double nearest to that value), and
    objects used as maps are finite maps. *)

From Stdlib Require Import Strings.String Strings.Ascii.
From Stdlib Require Import ZArith NArith QArith Bool List Lia.
From stdpp Require Import base option list gmap.

Close Scope Q_scope.
Open Scope N_scope.

Set Warnings "-clear-no-such-hyp".

(** ** JavaScript strings *)

Module JSString.

(** A string value: a finite sequence of 16-bit code units. *)
Definition jsstring := list N.

(** An ASCII literal of the source, as code units. *)
Definition lit (s : string) : jsstring :=
  List.map N_of_ascii (list_ascii_of_string s).

Definition ch (a : ascii) : N := N_of_ascii a.

Arguments lit : simpl never.
Arguments ch : simpl never.

Definition is_digit (c : N) : bool := (48 <=? c) && (c <=? 57).

(** [WhiteSpace] and [LineTerminator] of ECMAScript: what [trim] strips
    and what [parseFloat] skips in front of a literal. *)
Definition white_space_units : list N :=
  [0x9; 0xA; 0xB; 0xC; 0xD; 0x20; 0xA0; 0x1680;
   0x2000; 0x2001; 0x2002; 0x2003; 0x2004; 0x2005; 0x2006; 0x2007;
   0x2008; 0x2009; 0x200A; 0x2028; 0x2029; 0x202F; 0x205F; 0x3000;
   0xFEFF].

Definition is_white_space (c : N) : bool :=
  existsb (N.eqb c) white_space_units.

Fixpoint trimStart (s : jsstring) : jsstring :=
  match s with
  | c :: r => if is_white_space c then trimStart r else s
  | [] => []
  end.

Definition trimEnd (s : jsstring) : jsstring :=
  rev (trimStart (rev s)).

(** [String.prototype.trim]. *)
Definition trim (s : jsstring) : jsstring := trimEnd (trimStart s).

(** [s.replace(/c/g, by)] for a pattern that matches the single code
    unit [c]: every occurrence is replaced. *)
Definition replace_all (c : N) (by_ : jsstring) (s : jsstring) : jsstring :=
  flat_map (fun x => if x =? c then by_ else [x]) s.

(** [s.replace(c, by)] for a one-unit string pattern [c]: only the first
    occurrence is replaced. *)
Fixpoint replace_first (c : N) (by_ : jsstring) (s : jsstring) : jsstring :=
  match s with
  | [] => []
  | x :: r => if x =? c then by_ ++ r else x :: replace_first c by_ r
  end.

(** Equality of strings, code unit by code unit. *)
Fixpoint jsstring_eqb (a b : jsstring) : bool :=
  match a, b with
  | [], [] => true
  | x :: a', y :: b' => (x =? y) && jsstring_eqb a' b'
  | _, _ => false
  end.

Fixpoint starts_with (p s : jsstring) : bool :=
  match p, s with
  | [], _ => true
  | _ :: _, [] => false
  | a :: p', b :: s' => (a =? b) && starts_with p' s'
  end.

(** [String.prototype.includes]. *)
Fixpoint includes (needle s : jsstring) : bool :=
  starts_with needle s ||
  match s with
  | [] => false
  | _ :: r => includes needle r
  end.

(** [String.prototype.toLowerCase] on the Basic Latin block. Code units
    above U+007F are kept as they are: the Unicode case tables are not
    part of the model, and no code point outside Basic Latin lowers to
    one of the letters the program searches for. *)
Definition lower_unit (c : N) : N :=
  if (65 <=? c) && (c <=? 90) then c + 32 else c.

Definition toLowerCase (s : jsstring) : jsstring := List.map lower_unit s.

(** [s.split(',')[1]]: the piece between the first and the second comma,
    [None] (JavaScript's [undefined]) when [s] has no comma. *)
Fixpoint until_comma (s : jsstring) : jsstring * option jsstring :=
  match s with
  | [] => ([], None)
  | x :: r =>
      if x =? ch "," then ([], Some r)
      else let '(h, t) := until_comma r in (x :: h, t)
  end.

Definition split_comma_1 (s : jsstring) : option jsstring :=
  match snd (until_comma s) with
  | None => None
  | Some r => Some (fst (until_comma r))
  end.

End JSString.
Export JSString.

(** ** JavaScript numbers *)

Module JSNumber.

(** A Number, given by the mathematical value it was rounded from:
    [Dec neg m e] is the double nearest to [(-1)^neg * m * 10^e]. *)
Inductive number :=
| NaN
| Infinity (neg : bool)
| Dec (neg : bool) (mant : N) (exp10 : Z).

(** The mathematical value of a finite number. *)
Definition MV (x : number) : option Q :=
  match x with
  | Dec neg m e =>
      Some (Qmult (if neg then (-1 # 1)%Q else (1 # 1)%Q)
                  (Qmult (Z.of_N m # 1) (Qpower (10 # 1) e)))
  | _ => None
  end.

Fixpoint span_digits (s : jsstring) : jsstring * jsstring :=
  match s with
  | c :: r =>
      if is_digit c then let '(d, t) := span_digits r in (c :: d, t)
      else ([], s)
  | [] => ([], [])
  end.

Definition digits_value (ds : jsstring) : N :=
  fold_left (fun a d => 10 * a + (d - 48)) ds 0.

(** An optional sign: whether it is a minus, and the text after it. *)
Definition sign_prefix (s : jsstring) : bool * jsstring :=
  match s with
  | g :: r =>
      if g =? ch "+" then (false, r)
      else if g =? ch "-" then (true, r)
      else (false, s)
  | [] => (false, [])
  end.

(** [SignedInteger]: an optional sign and at least one digit. *)
Definition signed_integer (s : jsstring) : option (Z * jsstring) :=
  let signed := sign_prefix s in
  let digits := span_digits (snd signed) in
  match fst digits with
  | [] => None
  | ds => Some (if fst signed then Z.opp (Z.of_N (digits_value ds))
                else Z.of_N (digits_value ds), snd digits)
  end.

Definition is_exponent_indicator (c : N) : bool :=
  (c =? ch "e") || (c =? ch "E").

(** [ExponentPart], when the text starts with a complete one. *)
Definition exponent_part (s : jsstring) : option (Z * jsstring) :=
  match s with
  | c :: r => if is_exponent_indicator c then signed_integer r else None
  | [] => None
  end.

(** Mantissa digits [i ++ f] with [f] after the point, then an optional
    exponent read from [r]. *)
Definition with_exponent (neg : bool) (i f r : jsstring)
  : number * jsstring :=
  let m := digits_value (i ++ f) in
  let k := Z.of_nat (length f) in
  match exponent_part r with
  | Some (e, r') => (Dec neg m (e - k), r')
  | None => (Dec neg m (- k), r)
  end.

(** The longest prefix that is a [StrUnsignedDecimalLiteral], with the
    text left after it. *)
Definition unsigned_decimal_prefix (neg : bool) (s : jsstring)
  : option (number * jsstring) :=
  if starts_with (lit "Infinity") s then
    Some (Infinity neg, skipn 8 s)
  else
    let '(i, r) := span_digits s in
    match r with
    | c :: r' =>
        if c =? ch "." then
          let '(f, r'') := span_digits r' in
          match i, f with
          | [], [] => None
          | _, _ => Some (with_exponent neg i f r'')
          end
        else
          match i with
          | [] => None
          | _ => Some (with_exponent neg i [] r)
          end
    | [] =>
        match i with
        | [] => None
        | _ => Some (with_exponent neg i [] r)
        end
    end.

(** The longest prefix that is a [StrDecimalLiteral]. *)
Definition decimal_prefix (s : jsstring) : option (number * jsstring) :=
  match s with
  | c :: r =>
      if c =? ch "+" then unsigned_decimal_prefix false r
      else if c =? ch "-" then unsigned_decimal_prefix true r
      else unsigned_decimal_prefix false s
  | [] => None
  end.

(** The global [parseFloat]: leading white space is skipped, the longest
    decimal literal at the front is read, whatever follows is ignored;
    [NaN] when no literal starts the text. *)
Definition parseFloat (s : jsstring) : number :=
  match decimal_prefix (trimStart s) with
  | Some (x, _) => x
  | None => NaN
  end.

End JSNumber.
Export JSNumber.

(** ** JSON values and [JSON.parse] *)

Module JSON.

(** What [JSON.parse] can return. An object keeps its own properties in
    insertion order. *)
#[warnings="-register-all"]
Inductive json :=
| JNull
| JBool (b : bool)
| JNumber (x : number)
| JString (s : jsstring)
| JArray (l : list json)
| JObject (m : list (jsstring * json)).

(** Own property lookup. *)
Fixpoint field (k : jsstring) (m : list (jsstring * json)) : option json :=
  match m with
  | [] => None
  | (k', x) :: r => if jsstring_eqb k' k then Some x else field k r
  end.

(** [CreateDataProperty]: a repeated key keeps its place and takes the
    later value. *)
Fixpoint set_field (k : jsstring) (x : json) (m : list (jsstring * json))
  : list (jsstring * json) :=
  match m with
  | [] => [(k, x)]
  | (k', y) :: r =>
      if jsstring_eqb k' k then (k', x) :: r else (k', y) :: set_field k x r
  end.

Inductive presult (A : Type) :=
| POk (a : A) (rest : jsstring)
| PErr                      (* the text is not JSON *)
| PFuel.                    (* the recursion budget ran out *)
Arguments POk {A} a rest.
Arguments PErr {A}.
Arguments PFuel {A}.

(** JSON white space: tab, line feed, carriage return, space. *)
Definition is_json_ws (c : N) : bool :=
  (c =? 0x9) || (c =? 0xA) || (c =? 0xD) || (c =? 0x20).

Fixpoint skip_ws (s : jsstring) : jsstring :=
  match s with
  | c :: r => if is_json_ws c then skip_ws r else s
  | [] => []
  end.

Definition hex_value (c : N) : option N :=
  if is_digit c then Some (c - 48)
  else if (97 <=? c) && (c <=? 102) then Some (c - 87)
  else if (65 <=? c) && (c <=? 70) then Some (c - 55)
  else None.

Definition hex4 (a b c d : N) : option N :=
  match hex_value a, hex_value b, hex_value c, hex_value d with
  | Some x, Some y, Some z, Some w => Some (((x * 16 + y) * 16 + z) * 16 + w)
  | _, _, _, _ => None
  end.

Definition escape_unit (c : N) : option N :=
  if c =? 34 then Some 34            (* quotation mark *)
  else if c =? 92 then Some 92       (* reverse solidus *)
  else if c =? 47 then Some 47       (* solidus *)
  else if c =? ch "b" then Some 8
  else if c =? ch "f" then Some 12
  else if c =? ch "n" then Some 10
  else if c =? ch "r" then Some 13
  else if c =? ch "t" then Some 9
  else None.

(** The characters of a string literal after its opening quotation mark,
    up to and including the closing one. *)
Fixpoint string_body (s : jsstring) : option (jsstring * jsstring) :=
  match s with
  | [] => None
  | c :: r =>
      if c =? 34 then Some ([], r)
      else if c =? 92 then
        match r with
        | [] => None
        | e :: r1 =>
            if e =? ch "u" then
              match r1 with
              | h1 :: h2 :: h3 :: h4 :: r2 =>
                  match hex4 h1 h2 h3 h4, string_body r2 with
                  | Some u, Some (t, rest) => Some (u :: t, rest)
                  | _, _ => None
                  end
              | _ => None
              end
            else
              match escape_unit e, string_body r1 with
              | Some u, Some (t, rest) => Some (u :: t, rest)
              | _, _ => None
              end
        end
      else if c <? 0x20 then None
      else
        match string_body r with
        | Some (t, rest) => Some (c :: t, rest)
        | None => None
        end
  end.

(** The fraction of a JSON number: a point needs a digit after it. *)
Definition fraction (s : jsstring) : option (jsstring * jsstring) :=
  match s with
  | c :: r =>
      if c =? ch "." then
        match fst (span_digits r) with
        | [] => None
        | f => Some (f, snd (span_digits r))
        end
      else Some ([], s)
  | [] => Some ([], [])
  end.

(** The exponent of a JSON number: an [e] needs its digits. *)
Definition exponent (s : jsstring) : option (Z * jsstring) :=
  match s with
  | c :: _ =>
      if is_exponent_indicator c then exponent_part s else Some (0%Z, s)
  | [] => Some (0%Z, [])
  end.

(** A digit string of two or more digits that starts with [0]. *)
Definition leading_zero (i : jsstring) : bool :=
  match i with
  | c :: _ :: _ => c =? ch "0"
  | _ => false
  end.

(** A JSON number without its sign: [0] or a digit string that does not
    start with [0], then fraction and exponent. *)
Definition unsigned_number (neg : bool) (s : jsstring)
  : option (number * jsstring) :=
  let i := fst (span_digits s) in
  match i with
  | [] => None
  | _ :: _ =>
      if leading_zero i then None
      else
        match fraction (snd (span_digits s)) with
        | None => None
        | Some (f, r1) =>
            match exponent r1 with
            | None => None
            | Some (e, r2) =>
                Some (Dec neg (digits_value (i ++ f))
                          (e - Z.of_nat (length f)), r2)
            end
        end
  end.

Definition json_number (s : jsstring) : option (number * jsstring) :=
  match s with
  | c :: r => if c =? ch "-" then unsigned_number true r
              else unsigned_number false s
  | [] => None
  end.

Definition keyword (w : string) (x : json) (s : jsstring) : presult json :=
  if starts_with (lit w) s then POk x (skipn (String.length w) s) else PErr.

(** A value that is not an array or an object, at the front of [s]. *)
Definition scalar (s : jsstring) : presult json :=
  match s with
  | [] => PErr
  | c :: r =>
      if c =? 34 then
        match string_body r with
        | Some (t, rest) => POk (JString t) rest
        | None => PErr
        end
      else if c =? ch "t" then keyword "true" (JBool true) s
      else if c =? ch "f" then keyword "false" (JBool false) s
      else if c =? ch "n" then keyword "null" JNull s
      else
        match json_number s with
        | Some (x, rest) => POk (JNumber x) rest
        | None => PErr
        end
  end.

(** Recursive descent over the grammar of ECMA-404. [parse_elements] reads
    what follows the opening bracket of a non-empty array, [parse_members]
    what follows the opening brace of a non-empty object; [acc] holds
    what was read so far. *)
Fixpoint parse_value (fuel : nat) (s : jsstring) : presult json :=
  match fuel with
  | O => PFuel
  | S f =>
      match skip_ws s with
      | [] => PErr
      | c :: r =>
          if c =? ch "[" then
            match skip_ws r with
            | d :: r' =>
                if d =? ch "]" then POk (JArray []) r'
                else parse_elements f r []
            | [] => PErr
            end
          else if c =? ch "{" then
            match skip_ws r with
            | d :: r' =>
                if d =? ch "}" then POk (JObject []) r'
                else parse_members f r []
            | [] => PErr
            end
          else scalar (c :: r)
      end
  end
with parse_elements (fuel : nat) (s : jsstring) (acc : list json) : presult json :=
  match fuel with
  | O => PFuel
  | S f =>
      match parse_value f s with
      | POk x r =>
          match skip_ws r with
          | d :: r' =>
              if d =? ch "," then parse_elements f r' (x :: acc)
              else if d =? ch "]" then POk (JArray (rev (x :: acc))) r'
              else PErr
          | [] => PErr
          end
      | PErr => PErr
      | PFuel => PFuel
      end
  end
with parse_members (fuel : nat) (s : jsstring) (acc : list (jsstring * json))
  : presult json :=
  match fuel with
  | O => PFuel
  | S f =>
      match skip_ws s with
      | q :: r0 =>
          if q =? 34 then
            match string_body r0 with
            | Some (k, r1) =>
                match skip_ws r1 with
                | colon :: r2 =>
                    if colon =? ch ":" then
                      match parse_value f r2 with
                      | POk x r =>
                          match skip_ws r with
                          | d :: r' =>
                              if d =? ch "," then
                                parse_members f r' (set_field k x acc)
                              else if d =? ch "}" then
                                POk (JObject (set_field k x acc)) r'
                              else PErr
                          | [] => PErr
                          end
                      | PErr => PErr
                      | PFuel => PFuel
                      end
                    else PErr
                | [] => PErr
                end
            | None => PErr
            end
          else PErr
      | [] => PErr
      end
  end.

(** [JSON.parse(text)]: the value when the whole text is one JSON value
    between optional white space, [None] when the call throws a
    [SyntaxError]. The budget is never exhausted ([parse_value_fuel] below). *)
Definition JSON_parse (text : jsstring) : option json :=
  match parse_value (S (2 * length text)) text with
  | POk x rest =>
      match skip_ws rest with
      | [] => Some x
      | _ :: _ => None
      end
  | _ => None
  end.

End JSON.
Export JSON.

(** ** Journal rows *)

(** Modelled from the spec: the declaration of [StatementRow] (types.ts) is
    not among the sources; the spec and the response schema of the
    extraction request give it six string fields. *)
Record StatementRow := {
  date : jsstring;
  compteGeneral : jsstring;
  compteTier : jsstring;
  libelle : jsstring;
  debit : jsstring;
  credit : jsstring
}.

(** ** The spreadsheet library

    The part of SheetJS the export goes through: [json_to_sheet],
    [book_new], [book_append_sheet] and [writeFile], after the library's
    documented behaviour. *)

Module XLSX.

(** What a property of an exported row object holds. *)
Inductive value :=
| VNull
| VStr (s : jsstring)
| VNum (x : number).

(** The cell types of the library: number, string, boolean, error, date
    and [z], the stub of a blank cell. *)
Inductive cell_type := T_n | T_s | T_b | T_e | T_d | T_z.

Record cell := {
  cell_t : cell_type;
  cell_v : value;
  cell_z : option jsstring      (* number format, when one is set *)
}.

Record range := { s_c : nat; s_r : nat; e_c : nat; e_r : nat }.

(** A worksheet object. Its cell properties are keyed by address; the
    library spells the address [{c, r}] as an A1-style string through
    the injective [encode_cell], the model keeps the pair (row, column).
    ['!cols'] and ['!ref'] are the two special keys the export uses. *)
Record worksheet := {
  cells : gmap (nat * nat) cell;
  cols : option (list nat);
  ref : option range
}.

Definition encode_cell (c r : nat) : nat * nat := (r, c).

(** [hdr.indexOf(k)], [None] for -1. *)
Fixpoint indexOf (k : jsstring) (hdr : list jsstring) : option nat :=
  match hdr with
  | [] => None
  | h :: r => if jsstring_eqb h k then Some 0%nat
              else option_map S (indexOf k r)
  end.

(** The column of key [k]: its index in the header list, the list being
    extended by [k] when it is new. *)
Definition column_of (k : jsstring) (hdr : list jsstring)
  : nat * list jsstring :=
  match indexOf k hdr with
  | Some C => (C, hdr)
  | None => (length hdr, hdr ++ [k])
  end.

(** The columns of the properties of one row object, in key order. *)
Fixpoint place_row (hdr : list jsstring) (row : list (jsstring * value))
  : list jsstring * list (nat * value) :=
  match row with
  | [] => (hdr, [])
  | (k, x) :: rest =>
      let '(C, hdr1) := column_of k hdr in
      let '(hdr2, placed) := place_row hdr1 rest in
      (hdr2, (C, x) :: placed)
  end.

(** The cell made for a property value: a number gives a numeric cell
    (NaN included, its [typeof] is ['number']), a string a text cell,
    [null] a stub of type [z] that still carries the value [null]. *)
Definition cell_of_value (x : value) : cell :=
  match x with
  | VNum _ => {| cell_t := T_n; cell_v := x; cell_z := None |}
  | VStr _ => {| cell_t := T_s; cell_v := x; cell_z := None |}
  | VNull => {| cell_t := T_z; cell_v := VNull; cell_z := None |}
  end.

Definition put_cells (R : nat) (placed : list (nat * value))
    (ws : gmap (nat * nat) cell) : gmap (nat * nat) cell :=
  fold_left (fun m '(C, x) => <[encode_cell C R := cell_of_value x]> m)
            placed ws.

(** The data cells: row object number [R] goes to sheet row [R + 1]. *)
Fixpoint add_rows (R : nat) (js : list (list (jsstring * value)))
    (hdr : list jsstring) (ws : gmap (nat * nat) cell)
  : list jsstring * gmap (nat * nat) cell :=
  match js with
  | [] => (hdr, ws)
  | row :: rest =>
      let '(hdr1, placed) := place_row hdr row in
      add_rows (S R) rest hdr1 (put_cells (S R) placed ws)
  end.

(** The header cells of sheet row 0, one text cell per key. *)
Fixpoint put_header (C : nat) (hdr : list jsstring)
    (ws : gmap (nat * nat) cell) : gmap (nat * nat) cell :=
  match hdr with
  | [] => ws
  | h :: rest =>
      put_header (S C) rest
        (<[encode_cell C 0 :=
             {| cell_t := T_s; cell_v := VStr h; cell_z := None |}]> ws)
  end.

(** [XLSX.utils.json_to_sheet] with its default options. *)
Definition json_to_sheet (js : list (list (jsstring * value))) : worksheet :=
  let filled := add_rows 0 js [] ∅ in
  let hdr := fst filled in
  {| cells := put_header 0 hdr (snd filled);
     cols := None;
     ref := Some {| s_c := 0; s_r := 0;
                    e_c := Nat.max 0 (length hdr - 1);
                    e_r := length js |} |}.

(** A workbook: its sheets by name, in the order of [SheetNames]. *)
Definition workbook := list (jsstring * worksheet).

Definition book_new : workbook := [].

Definition book_append_sheet (wb : workbook) (ws : worksheet)
    (name : jsstring) : workbook := wb ++ [(name, ws)].

(** What [XLSX.writeFile] hands to the browser for saving. *)
Record download := { saved_as : jsstring; book : workbook }.

Definition writeFile (wb : workbook) (name : jsstring) : download :=
  {| saved_as := name; book := wb |}.

End XLSX.
Export XLSX.

(** ** The spreadsheet export *)

Module Exporter.

(** [row.debit ? parseFloat(row.debit.replace(/\./g, '').replace(',', '.')) : null]:
    the empty string is the only falsy string. *)
Definition amount_value (s : jsstring) : value :=
  match s with
  | [] => VNull
  | _ => VNum (parseFloat
                 (replace_first (ch ",") (lit ".")
                    (replace_all (ch ".") [] s)))
  end.

Definition export_row (row : StatementRow) : list (jsstring * value) :=
  [ (lit "DATE", VStr (date row));
    (lit "COMPTE GENERAL", VStr (compteGeneral row));
    (lit "COMPTE TIER", VStr (compteTier row));
    (lit "LIBELLE", VStr (libelle row));
    (lit "DEBIT", amount_value (debit row));
    (lit "CREDIT", amount_value (credit row)) ].

Definition dataForExport (data : list StatementRow)
  : list (list (jsstring * value)) := List.map export_row data.

Definition columnWidths : list nat :=
  [15; 20; 20; 80; 15; 15]%nat.

Definition number_format : jsstring := lit "#,##0.00".

(** The body of the inner loop: a cell that exists and whose value is
    not [null] becomes numeric with the number format. *)
Definition format_cell (m : gmap (nat * nat) cell) (cell_ref : nat * nat)
  : gmap (nat * nat) cell :=
  match m !! cell_ref with
  | Some c =>
      match cell_v c with
      | VNull => m
      | x => <[cell_ref := {| cell_t := T_n; cell_v := x;
                              cell_z := Some number_format |}]> m
      end
  | None => m
  end.

(** [XLSX.utils.decode_range(worksheet['!ref'] || 'A1')]. *)
Definition decode_range (r : option range) : range :=
  match r with
  | Some g => g
  | None => {| s_c := 0; s_r := 0; e_c := 0; e_r := 0 |}
  end.

(** The two nested loops: sheet rows [s.r + 1 .. e.r], columns 4 and 5. *)
Definition format_amounts (g : range) (m : gmap (nat * nat) cell)
  : gmap (nat * nat) cell :=
  fold_left
    (fun m1 R =>
       fold_left (fun m2 C => format_cell m2 (encode_cell C R))
                 [4; 5]%nat m1)
    (seq (S (s_r g)) (e_r g - s_r g)) m.

Definition handleDownloadExcel (data : option (list StatementRow))
  : option download :=
  match data with
  | None => None
  | Some rows =>
      let worksheet0 := json_to_sheet (dataForExport rows) in
      let worksheet1 :=
        {| cells := cells worksheet0;
           cols := Some columnWidths;
           ref := ref worksheet0 |} in
      let range := decode_range (ref worksheet1) in
      let worksheet2 :=
        {| cells := format_amounts range (cells worksheet1);
           cols := cols worksheet1;
           ref := ref worksheet1 |} in
      let workbook := book_new in
      let workbook := book_append_sheet workbook worksheet2
                        (lit "CMI Statement") in
      Some (writeFile workbook (lit "cmi_statement_data.xlsx"))
  end.

(** The single sheet of a download, and a cell of it. *)
Definition sheet_of (d : option download) : option worksheet :=
  match d with
  | Some {| book := [(_, ws)] |} => Some ws
  | _ => None
  end.

Definition cell_at (d : option download) (R C : nat) : option cell :=
  match sheet_of d with
  | Some ws => cells ws !! encode_cell C R
  | None => None
  end.

(** The header list [json_to_sheet] arrives at for exported rows, the
    cells of one exported row, and the data cells row by row: the closed
    forms the proofs work with. *)
Definition headers : list jsstring :=
  [lit "DATE"; lit "COMPTE GENERAL"; lit "COMPTE TIER"; lit "LIBELLE";
   lit "DEBIT"; lit "CREDIT"].

Definition header_cell (h : jsstring) : cell :=
  {| cell_t := T_s; cell_v := VStr h; cell_z := None |}.

Definition row_values (row : StatementRow) : list (nat * value) :=
  [ (0, VStr (date row)); (1, VStr (compteGeneral row));
    (2, VStr (compteTier row)); (3, VStr (libelle row));
    (4, amount_value (debit row)); (5, amount_value (credit row)) ]%nat.

Definition data_cell (row : StatementRow) (C : nat) : option cell :=
  cell_of_value <$>
    [ VStr (date row); VStr (compteGeneral row); VStr (compteTier row);
      VStr (libelle row); amount_value (debit row);
      amount_value (credit row) ] !! C.

Fixpoint put_all (R : nat) (data : list StatementRow)
    (m : gmap (nat * nat) cell) : gmap (nat * nat) cell :=
  match data with
  | [] => m
  | row :: rest => put_all (S R) rest (put_cells (S R) (row_values row) m)
  end.

(** What the number-format loop makes of a cell it visits. *)
Definition formatted (c : cell) : cell :=
  match cell_v c with
  | VNull => c
  | x => {| cell_t := T_n; cell_v := x; cell_z := Some number_format |}
  end.

(** The cell of the exported sheet at row [R], column [C], in closed form:
    the header texts in row 0, the values of journal row [R - 1] below,
    the amounts in columns 4 and 5 formatted when they are not [null]. *)
Definition expected_cell (data : list StatementRow) (R C : nat)
  : option cell :=
  match R with
  | O => match data with
         | [] => None
         | _ :: _ => header_cell <$> headers !! C
         end
  | S i =>
      match data !! i with
      | Some row =>
          if decide (C = 4 \/ C = 5)%nat then formatted <$> data_cell row C
          else data_cell row C
      | None => None
      end
  end.

(** The exported cell holds a number whose mathematical value is [q]. *)
Definition exports_number (d : option download) (R C : nat) (q : Q) : Prop :=
  exists x q',
    cell_at d R C = Some {| cell_t := T_n; cell_v := VNum x;
                            cell_z := Some number_format |}
    /\ MV x = Some q' /\ Qeq q' q.

(** The amount string behind column [C] of the sheet: the debit in
    column 4, the credit in column 5. *)
Definition amount (C : nat) (row : StatementRow) : option jsstring :=
  match C with
  | 4%nat => Some (debit row)
  | 5%nat => Some (credit row)
  | _ => None
  end.

End Exporter.
Export Exporter.


(** ** Values at run time

    The shell tests what the extraction returned with
    [extracted && extracted.length > 0]. TypeScript's cast in the client
    checks nothing, so the test runs on whatever [JSON.parse] gave. *)

Module JSValue.

(** What the engine puts into the errors it raises itself; ECMAScript
    leaves the wording of every message to the implementation. *)
Class Engine := {
  (** the [SyntaxError] of [JSON.parse] on a text that is not JSON *)
  syntaxErrorMessage : jsstring -> jsstring;
  (** the [TypeError] of calling [trim] on [undefined] *)
  undefinedTrimMessage : jsstring;
  (** the [TypeError] of converting an object to a primitive value *)
  toPrimitiveMessage : jsstring
}.

(** The sign of a Number, all that a comparison with zero looks at. *)
Inductive numclass := CNaN | CNeg | CZero | CPos.

(** A decimal value rounds to zero when it is at most half of the least
    positive double, [2^-1075]. *)
Definition dec_class (neg : bool) (m : N) (e : Z) : numclass :=
  if m =? 0 then CZero
  else if ((e <? 0)%Z && (Z.of_N m * 2 ^ 1075 <=? 10 ^ (- e))%Z) then CZero
  else if neg then CNeg else CPos.

Definition number_class (x : number) : numclass :=
  match x with
  | NaN => CNaN
  | Infinity neg => if neg then CNeg else CPos
  | Dec neg m e => dec_class neg m e
  end.

Definition digit_in (radix : N) (c : N) : option N :=
  match hex_value c with
  | Some d => if d <? radix then Some d else None
  | None => None
  end.

(** The value of a non-empty digit string in the given radix. *)
Fixpoint radix_value (radix : N) (acc : N) (s : jsstring) : option N :=
  match s with
  | [] => Some acc
  | c :: r =>
      match digit_in radix c with
      | Some d => radix_value radix (radix * acc + d) r
      | None => None
      end
  end.

(** [NonDecimalIntegerLiteral]: [0x], [0o] or [0b] and at least one digit. *)
Definition non_decimal_literal (s : jsstring) : option N :=
  match s with
  | 48 :: p :: d :: r =>
      if (p =? ch "x") || (p =? ch "X") then radix_value 16 0 (d :: r)
      else if (p =? ch "o") || (p =? ch "O") then radix_value 8 0 (d :: r)
      else if (p =? ch "b") || (p =? ch "B") then radix_value 2 0 (d :: r)
      else None
  | _ => None
  end.

(** The sign of [StringToNumber(s)]: white space around is dropped, the
    empty text is [+0], and the rest has to be one numeric literal as a
    whole. *)
Definition string_class (s : jsstring) : numclass :=
  match trim s with
  | [] => CZero
  | t =>
      match non_decimal_literal t with
      | Some n => if n =? 0 then CZero else CPos
      | None =>
          match decimal_prefix t with
          | Some (x, []) => number_class x
          | _ => CNaN
          end
      end
  end.

(** Converting to a string throws for an object whose own [toString]
    property hides the inherited method (a parsed value is never
    callable), and for an array with such an element. *)
Fixpoint to_string_throws (x : json) : bool :=
  match x with
  | JObject m =>
      match field (lit "toString") m with Some _ => true | None => false end
  | JArray l => existsb to_string_throws l
  | _ => false
  end.

(** The sign of [StringToNumber] on the text an array element contributes
    to [join]: nothing for [null], the number itself for a number (its
    text reads back as the same number), the words [true], [false] and
    [[object Object]] are no numerals, and a joined text with a comma is
    none either. *)
Fixpoint joined_class (x : json) : numclass :=
  match x with
  | JNull => CZero
  | JBool _ => CNaN
  | JNumber n => number_class n
  | JString s => string_class s
  | JObject _ => CNaN
  | JArray l =>
      match l with
      | [] => CZero
      | [e] => joined_class e
      | _ :: _ :: _ => CNaN
      end
  end.

(** The sign of [ToNumber(ToPrimitive(x))], [None] when the conversion
    throws a [TypeError]. *)
Definition to_number_class (x : json) : option numclass :=
  if to_string_throws x then None
  else Some
    match x with
    | JNull => CZero
    | JBool b => if b then CPos else CZero
    | JNumber n => number_class n
    | JString s => string_class s
    | JArray _ => joined_class x
    | JObject _ => CNaN
    end.

(** [ToBoolean]. *)
Definition truthy (x : json) : bool :=
  match x with
  | JNull => false
  | JBool b => b
  | JNumber n =>
      match number_class n with CNaN | CZero => false | _ => true end
  | JString s => match s with [] => false | _ => true end
  | JArray _ | JObject _ => true
  end.

(** [x.length > 0], [None] when evaluating it throws. A string and an
    array have their length; an object has it when it owns a property of
    that name; a number or a boolean has none and [undefined > 0] is
    false; reading a property of [null] throws. *)
Definition length_gt_0 (x : json) : option bool :=
  match x with
  | JString s => Some (0 <? length s)%nat
  | JArray l => Some (0 <? length l)%nat
  | JObject m =>
      match field (lit "length") m with
      | None => Some false
      | Some y =>
          match to_number_class y with
          | None => None
          | Some CPos => Some true
          | Some _ => Some false
          end
      end
  | JNull => None
  | JBool _ | JNumber _ => Some false
  end.

(** [extracted && extracted.length > 0], as the condition of an [if]. *)
Definition has_rows (extracted : json) : option bool :=
  if truthy extracted then length_gt_0 extracted else Some false.

(** The declared shape of a journal row, which nothing checks at run
    time: an object with the six properties, all strings. *)
Definition as_row (x : json) : option StatementRow :=
  match x with
  | JObject m =>
      match field (lit "date") m, field (lit "compteGeneral") m,
            field (lit "compteTier") m, field (lit "libelle") m,
            field (lit "debit") m, field (lit "credit") m with
      | Some (JString a), Some (JString b), Some (JString c),
        Some (JString d), Some (JString e), Some (JString f) =>
          Some {| date := a; compteGeneral := b; compteTier := c;
                  libelle := d; debit := e; credit := f |}
      | _, _, _, _, _, _ => None
      end
  | _ => None
  end.

Fixpoint all_rows (l : list json) : option (list StatementRow) :=
  match l with
  | [] => Some []
  | x :: r =>
      match as_row x, all_rows r with
      | Some a, Some b => Some (a :: b)
      | _, _ => None
      end
  end.

Definition as_rows (x : json) : option (list StatementRow) :=
  match x with
  | JArray l => all_rows l
  | _ => None
  end.

End JSValue.
Export JSValue.

(** ** The extraction client *)

Module Client.

Record generative_part := {
  inlineData_data : option jsstring;
  inlineData_mimeType : jsstring
}.

Definition fileToGenerativePart (base64 : option jsstring)
    (mimeType : jsstring) : generative_part :=
  {| inlineData_data := base64; inlineData_mimeType := mimeType |}.

(** The argument of [ai.models.generateContent]. *)
Record request := {
  model : jsstring;
  text_part : jsstring;
  file_part : generative_part;
  responseMimeType : jsstring;
  schema_properties : list jsstring;
  schema_required : list jsstring
}.

(** What can be thrown: an [Error] object with its message, or a value
    that is no instance of [Error]. *)
Inductive thrown :=
| ErrorObject (message : jsstring)
| NotAnError.

(** How the awaited call settles: a response whose [text] is a string or
    [undefined], or a rejection. *)
Inductive outcome :=
| Resolved (text : option jsstring)
| Rejected (e : thrown).

(** How the promise of [extractDataFromFile] settles. *)
Inductive result :=
| Returned (extractedData : json)
| Thrown (e : thrown).

(** A computation that may call the hosted model and goes on with what
    the call gave. *)
Inductive client (A : Type) :=
| Ret (a : A)
| GenerateContent (req : request) (k : outcome -> client A).
Arguments Ret {A} a.
Arguments GenerateContent {A} req k.

(** Running a computation against the model, whose answer may depend on
    the request and on how many requests came before; the requests made
    are recorded in order. *)
Fixpoint run {A : Type} (env : nat -> request -> outcome) (n : nat)
    (p : client A) : A * list request :=
  match p with
  | Ret a => (a, [])
  | GenerateContent req k =>
      let '(a, sent) := run env (S n) (k (env n req)) in (a, req :: sent)
  end.

Section Extraction.

Context {E : Engine}.

(** The instruction text of the source, a template literal without
    substitutions; no property below depends on its wording. *)
Variable prompt : jsstring.

Definition empty_response_message : jsstring :=
  lit "The AI returned an empty response. The document might be unreadable or not a CMI statement.".

Definition invalid_format_message : jsstring :=
  lit "The AI returned an invalid format. Please try a clearer image or a different file.".

Definition processing_prefix : jsstring :=
  lit "An error occurred while processing the statement: ".

Definition unknown_error_message : jsstring :=
  lit "An unknown error occurred during AI processing.".

(** The [try] block once the call has settled: [inl] is a throw. *)
Definition try_block (response : outcome) : thrown + json :=
  match response with
  | Rejected e => inl e
  | Resolved None => inl (ErrorObject undefinedTrimMessage)
  | Resolved (Some text) =>
      let jsonText := trim text in
      match jsonText with
      | [] => inl (ErrorObject empty_response_message)
      | _ :: _ =>
          match JSON_parse jsonText with
          | Some extractedData => inr extractedData
          | None => inl (ErrorObject (syntaxErrorMessage jsonText))
          end
      end
  end.

(** The [catch] block: what is thrown in place of [error]. The line it
    writes to the console before is not part of the model. *)
Definition catch_block (error : thrown) : thrown :=
  match error with
  | ErrorObject message =>
      if includes (lit "json") (toLowerCase message)
      then ErrorObject invalid_format_message
      else ErrorObject (processing_prefix ++ message)
  | NotAnError => ErrorObject unknown_error_message
  end.

Definition settle (response : outcome) : result :=
  match try_block response with
  | inr extractedData => Returned extractedData
  | inl error => Thrown (catch_block error)
  end.

Definition extractDataFromFile (fileBase64 : option jsstring)
    (fileType : jsstring) : client result :=
  let filePart := fileToGenerativePart fileBase64 fileType in
  GenerateContent
    {| model := lit "gemini-2.5-flash";
       text_part := prompt;
       file_part := filePart;
       responseMimeType := lit "application/json";
       schema_properties :=
         [lit "date"; lit "compteGeneral"; lit "compteTier";
          lit "libelle"; lit "debit"; lit "credit"];
       schema_required :=
         [lit "date"; lit "compteGeneral"; lit "compteTier";
          lit "libelle"; lit "debit"; lit "credit"] |}
    (fun response => Ret (settle response)).

End Extraction.

End Client.
Export Client.

(** ** The application shell *)

Module Shell.

Record File := { name : jsstring; type : jsstring }.

(** The React state of the component. *)
Record AppState := {
  data : option json;
  loading : bool;
  error : option jsstring;
  fileName : option jsstring;
  isDragging : bool
}.

Definition initial : AppState :=
  {| data := None; loading := false; error := None; fileName := None;
     isDragging := false |}.

(** The states of the shell as the specification names them, read off the
    state variables. [Success] says that [data] holds what an extraction
    returned; the page displays it through [DataTable], which renders
    every array of journal rows. *)
Inductive phase :=
| Idle
| Loading
| Success (rows : json)
| Error (message : jsstring).

Definition phase_of (st : AppState) : phase :=
  if loading st then Loading
  else match error st with
       | Some message => Error message
       | None =>
           match data st with
           | Some rows => Success rows
           | None => Idle
           end
       end.

(** What a flow is waiting for between two runs of its handlers. *)
Inductive stage :=
| Reading (file : File)
| Calling (file : File) (req : request) (k : outcome -> client result).

Record config := { app : AppState; inflight : option stage }.

(** What a handler starts or hands out. *)
Inductive effect :=
| ReadAsDataURL (file : File)
| ModelCall (req : request)
| DownloadExcel (rows : json).

(** How the read ends: [reader.onload] with the data URL, or
    [reader.onerror]. *)
Inductive read_result :=
| Loaded (result : jsstring)
| ReadFailed.

Inductive event :=
| Select (file : File) (threw : option thrown)
| Drop (file : File) (threw : option thrown)
| DragEnter
| DragLeave
| DragOver
| Reset
| Download
| ReadDone (r : read_result)
| ModelDone (response : outcome).

Definition setError (message : jsstring) (st : AppState) : AppState :=
  {| data := data st; loading := loading st; error := Some message;
     fileName := fileName st; isDragging := isDragging st |}.

Definition setData (rows : json) (st : AppState) : AppState :=
  {| data := Some rows; loading := loading st; error := error st;
     fileName := fileName st; isDragging := isDragging st |}.

Definition setLoading (b : bool) (st : AppState) : AppState :=
  {| data := data st; loading := b; error := error st;
     fileName := fileName st; isDragging := isDragging st |}.

Definition setIsDragging (b : bool) (st : AppState) : AppState :=
  {| data := data st; loading := loading st; error := error st;
     fileName := fileName st; isDragging := b |}.

Section Handlers.

Context {E : Engine}.
Variable prompt : jsstring.

(** [err instanceof Error ? err.message : fallback]. *)
Definition message_of (err : thrown) (fallback : jsstring) : jsstring :=
  match err with
  | ErrorObject message => message
  | NotAnError => fallback
  end.

(** From [setData(null)] to the end of the outer [try]: the state is
    cleared and marked loading, and the read is started. [threw] is what
    creating the reader or starting the read throws, if anything; the
    outer [catch] then reports it. The [finally] block empties the file
    input of the page, which is no part of the state. *)
Definition start_read (file : File) (threw : option thrown)
    (st : AppState) : config * list effect :=
  let st1 :=
    {| data := None; loading := true; error := None;
       fileName := Some (name file); isDragging := isDragging st |} in
  match threw with
  | None => ({| app := st1; inflight := Some (Reading file) |},
             [ReadAsDataURL file])
  | Some err =>
      ({| app := setLoading false
                   (setError (message_of err
                                (lit "An unexpected error occurred.")) st1);
          inflight := None |}, [])
  end.

(** What follows [await extractDataFromFile(...)] in [reader.onload]. *)
Definition after_extract (r : result) (st : AppState) : AppState :=
  setLoading false
    match r with
    | Returned extracted =>
        match has_rows extracted with
        | Some true => setData extracted st
        | Some false =>
            setError (lit "No data could be extracted from the document. It might be empty or in an unsupported format.") st
        | None => setError toPrimitiveMessage st
        end
    | Thrown err =>
        setError (message_of err
                    (lit "An unexpected error occurred during processing.")) st
    end.

(** Going on with the client until it calls the model or is done. *)
Definition await (file : File) (p : client result) (st : AppState)
    : config * list effect :=
  match p with
  | Ret r => ({| app := after_extract r st; inflight := None |}, [])
  | GenerateContent req k =>
      ({| app := st; inflight := Some (Calling file req k) |},
       [ModelCall req])
  end.

(** [reader.onload]. *)
Definition onload (file : File) (result : jsstring) (st : AppState)
    : config * list effect :=
  let base64 := split_comma_1 result in
  await file (extractDataFromFile prompt base64 (type file)) st.

(** [reader.onerror]. *)
Definition onerror (st : AppState) : AppState :=
  setLoading false
    (setError (lit "Failed to read the file. Please try again.") st).

(** The completions of a flow in flight, the same in both shells. *)
Definition complete (c : config) (ev : event)
    : option (config * list effect) :=
  match inflight c, ev with
  | Some (Reading file), ReadDone (Loaded result) =>
      Some (onload file result (app c))
  | Some (Reading file), ReadDone ReadFailed =>
      Some ({| app := onerror (app c); inflight := None |}, [])
  | Some (Calling file req k), ModelDone response =>
      Some (await file (k response) (app c))
  | _, _ => None
  end.

End Handlers.

End Shell.
Export Shell.

(** ** The shell of [src/App.tsx] *)

Module App.

Section App.

Context {E : Engine}.
Variable prompt : jsstring.

(** [handleFileChange] for an event that carries a file. *)
Definition handleFileChange (file : File) (threw : option thrown)
    (st : AppState) : config * list effect :=
  start_read file threw st.

(** The file input is always rendered and disabled while loading; the
    download button is rendered with the table, when [data] is set. A
    flow is in flight only while loading ([inflight_loading] below),
    so a selection never finds another flow. *)
Definition step (c : config) (ev : event) : option (config * list effect) :=
  match ev with
  | Select file threw =>
      if loading (app c) then None
      else Some (handleFileChange file threw (app c))
  | Download =>
      match data (app c) with
      | Some rows => Some (c, [DownloadExcel rows])
      | None => None
      end
  | ReadDone _ | ModelDone _ => complete prompt c ev
  | Drop _ _ | DragEnter | DragLeave | DragOver | Reset => None
  end.

End App.

End App.

(** ** The shell with the drop zone *)

Module DropApp.

Definition acceptedTypes : list jsstring :=
  [lit "application/pdf"; lit "image/png"; lit "image/jpeg"; lit "image/jpg"].

(** [acceptedTypes.includes(t)]. *)
Definition accepted (t : jsstring) : bool :=
  existsb (jsstring_eqb t) acceptedTypes.

Definition unsupported_message (t : jsstring) : jsstring :=
  lit "Unsupported file type: " ++ t ++
  lit ". Please upload a PDF or image file.".

(** What [renderContent] puts on the page. *)
Inductive view :=
| Spinner
| ErrorPanel (message : jsstring)
| Results (rows : json)
| Dropzone.

Definition renderContent (st : AppState) : view :=
  if loading st then Spinner
  else match error st with
       | Some (c :: m) => ErrorPanel (c :: m)
       | _ =>
           match data st with
           | Some rows => if truthy rows then Results rows else Dropzone
           | None => Dropzone
           end
       end.

Definition resetState (st : AppState) : AppState :=
  {| data := None; loading := false; error := None; fileName := None;
     isDragging := isDragging st |}.

Section DropApp.

Context {E : Engine}.
Variable prompt : jsstring.

Definition processFile (file : File) (threw : option thrown)
    (st : AppState) : config * list effect :=
  if negb (accepted (type file)) then
    ({| app := setError (unsupported_message (type file)) st;
        inflight := None |}, [])
  else start_read file threw st.

Definition handleFileChange := processFile.

Definition handleDrop (file : File) (threw : option thrown)
    (st : AppState) : config * list effect :=
  processFile file threw (setIsDragging false st).

(** A handler can run only when the element that carries it is on the
    page: nothing but the spinner while loading, the retry button on the
    error panel, reset and download next to the results, the drop zone
    with the file input otherwise. A flow is in flight only while the
    spinner is shown ([inflight_loading] below), so a handler that
    starts one never finds another. *)
Definition step (c : config) (ev : event) : option (config * list effect) :=
  match ev, renderContent (app c) with
  | Select file threw, Dropzone =>
      Some (handleFileChange file threw (app c))
  | Drop file threw, Dropzone => Some (handleDrop file threw (app c))
  | DragEnter, Dropzone =>
      Some ({| app := setIsDragging true (app c);
               inflight := inflight c |}, [])
  | DragLeave, Dropzone =>
      Some ({| app := setIsDragging false (app c);
               inflight := inflight c |}, [])
  | DragOver, Dropzone => Some (c, [])
  | Reset, ErrorPanel _ | Reset, Results _ =>
      Some ({| app := resetState (app c); inflight := inflight c |}, [])
  | Download, Results rows => Some (c, [DownloadExcel rows])
  | ReadDone _, _ | ModelDone _, _ => complete prompt c ev
  | _, _ => None
  end.

End DropApp.

End DropApp.

(** ** Both shells as one machine *)

Module Machine.

Inductive shell :=
| AppTsx          (* the shell of src/App.tsx *)
| WithDropzone.   (* the shell with [processFile] and the drop zone *)

Section Machine.

Context {E : Engine}.
Variable prompt : jsstring.

Definition step (sh : shell) : config -> event -> option (config * list effect) :=
  match sh with
  | AppTsx => App.step prompt
  | WithDropzone => DropApp.step prompt
  end.

Definition start : config := {| app := initial; inflight := None |}.

(** The configurations a shell can be in. *)
Inductive reachable (sh : shell) : config -> Prop :=
| reach_start : reachable sh start
| reach_step c ev c' effs :
    reachable sh c -> step sh c ev = Some (c', effs) -> reachable sh c'.

(** Feeding a list of events to a shell; the effects are collected in
    order, and an event that is not enabled stops the run. *)
Fixpoint run_events (sh : shell) (c : config) (evs : list event)
  : option (config * list effect) :=
  match evs with
  | [] => Some (c, [])
  | ev :: rest =>
      match step sh c ev with
      | None => None
      | Some (c1, effs1) =>
          match run_events sh c1 rest with
          | None => None
          | Some (c2, effs2) => Some (c2, effs1 ++ effs2)
          end
      end
  end.

(** A flow is in flight exactly while the shell is loading, the state it
    started from was cleared, and what it waits for from the model is the
    continuation of [extractDataFromFile]. *)
Definition consistent (c : config) : Prop :=
  match inflight c with
  | None => loading (app c) = false
  | Some (Reading _) =>
      loading (app c) = true /\ error (app c) = None /\ data (app c) = None
  | Some (Calling _ _ k) =>
      loading (app c) = true /\ error (app c) = None /\ data (app c) = None
      /\ k = (fun response => Ret (settle response))
  end.

End Machine.

End Machine.
Export Machine.

(** ** Numbers as doubles *)

Module JSDouble.

(** The Number itself: an IEEE-754 binary64 value. [DFinite neg m e] is
    [(-1)^neg * m * 2^e] with [m < 2^53] and [-1074 <= e <= 971]; [m] is at
    least [2^52] unless [e] is -1074 (a subnormal), and zero is [m = 0]
    with [e = 0]. *)
Inductive double :=
| DNaN
| DInfinity (neg : bool)
| DFinite (neg : bool) (m : N) (e : Z).

(** The integer [k] with [2^k <= a / b < 2^(k+1)], for positive [a], [b]. *)
Definition floor_log2 (a b : Z) : Z :=
  let k := (Z.log2 a - Z.log2 b)%Z in
  if (b * 2 ^ Z.max 0 k <=? a * 2 ^ Z.max 0 (- k))%Z then k else (k - 1)%Z.

(** The integer nearest to [a / b], the even one of two that are equally
    near. *)
Definition round_half_even (a b : Z) : Z :=
  let q := (a / b)%Z in
  let r := (a mod b)%Z in
  if (b <? 2 * r)%Z then (q + 1)%Z
  else if (2 * r =? b)%Z then (if Z.even q then q else (q + 1)%Z)
  else q.

(** The double nearest to [a / b] ([a >= 0], [b > 0]), ties to even: 53
    bits of precision, the spacing of the subnormals below [2^-1022],
    infinity from [2^1024 - 2^970] on. *)
Definition nearest_double (neg : bool) (a b : Z) : double :=
  if (a =? 0)%Z then DFinite neg 0 0
  else
    let k := floor_log2 a b in
    let e := Z.max (k - 52) (-1074) in
    let m := round_half_even (a * 2 ^ Z.max 0 (- e)) (b * 2 ^ Z.max 0 e) in
    let e' := if (m =? 2 ^ 53)%Z then (e + 1)%Z else e in
    let m' := if (m =? 2 ^ 53)%Z then (2 ^ 52)%Z else m in
    if (971 <? e')%Z then DInfinity neg
    else if (m' =? 0)%Z then DFinite neg 0 0
    else DFinite neg (Z.to_N m') e'.

(** The double a [number] stands for: the one nearest to its decimal
    value. (For a numeral of more than twenty significant digits
    ECMAScript lets an engine round a truncation of it instead.) *)
Definition double_of (x : number) : double :=
  match x with
  | NaN => DNaN
  | Infinity neg => DInfinity neg
  | Dec neg m e =>
      if (0 <=? e)%Z then nearest_double neg (Z.of_N m * 10 ^ e) 1
      else nearest_double neg (Z.of_N m) (10 ^ (- e))
  end.

(** The double in a cell that holds a number. *)
Definition cell_double (x : value) : option double :=
  match x with
  | VNum n => Some (double_of n)
  | _ => None
  end.

End JSDouble.
Export JSDouble.

(** ** What the shell of [src/App.tsx] puts on the page *)

Module AppView.

(** What [StatusDisplay] renders. *)
Inductive status :=
| StatusSpinner
| StatusError (message : jsstring)
| StatusPrompt
| StatusNothing.

Definition StatusDisplay (st : AppState) : status :=
  if loading st then StatusSpinner
  else match error st with
       | Some (c :: m) => StatusError (c :: m)
       | _ =>
           if negb (match data st with
                    | Some rows => truthy rows
                    | None => false
                    end) && negb (loading st)
           then StatusPrompt
           else StatusNothing
       end.

(** [{data && (...)}]: the value the block hands to [<DataTable>] when
    its guard holds, [None] when the block is left out. What the page
    shows for the value is up to [DataTable]; it renders every array of
    journal rows. *)
Definition table_block (st : AppState) : option json :=
  match data st with
  | Some rows => if truthy rows then Some rows else None
  | None => None
  end.

(** What is kept in [data] passed the test of the shell, and is kept
    only while nothing else is going on. *)
Definition results_valid (c : config) : Prop :=
  forall v, data (app c) = Some v ->
    has_rows v = Some true /\ error (app c) = None
    /\ loading (app c) = false.

End AppView.
Export AppView.

(** ** The results table *)

Module TableView.

(** A cell of the table body: its text and, on the label cell, the
    [title] attribute. *)
Record td := { td_title : option jsstring; td_text : jsstring }.

Record tr := { tr_key : nat; tr_cells : list td }.

Record table := { thead : list jsstring; tbody : list tr }.

Definition plain (text : jsstring) : td :=
  {| td_title := None; td_text := text |}.

(** The [DataTable] component: six column titles, and one row per entry
    of [data], keyed by its index. The letter e with acute accent of the
    titles is the code unit 0xE9. *)
Definition DataTable (data : list StatementRow) : table :=
  {| thead := [lit "Date"; lit "Compte General"; lit "Compte Tier";
               lit "Libell" ++ [0xE9]; lit "D" ++ [0xE9] ++ lit "bit";
               lit "Cr" ++ [0xE9] ++ lit "dit"];
     tbody :=
       imap (fun index row =>
               {| tr_key := index;
                  tr_cells :=
                    [plain (date row); plain (compteGeneral row);
                     plain (compteTier row);
                     {| td_title := Some (libelle row);
                        td_text := libelle row |};
                     plain (debit row); plain (credit row)] |})
            data |}.

End TableView.
Export TableView.

(** ** Sample data for concrete runs *)

Module Samples.

(** An engine with V8's wording, for concrete runs. *)
Definition sample_engine : Engine :=
  {| syntaxErrorMessage := fun _ => lit "Unexpected end of JSON input";
     undefinedTrimMessage :=
       lit "Cannot read properties of undefined (reading 'trim')";
     toPrimitiveMessage := lit "Cannot convert object to primitive value" |}.

(** A model that answers every request with the same text. *)
Definition answers (text : jsstring) : nat -> request -> outcome :=
  fun _ _ => Resolved (Some text).

(** A model whose call is rejected with an [Error] of the given message,
    and one whose response has no text. *)
Definition rejects (message : jsstring) : nat -> request -> outcome :=
  fun _ _ => Rejected (ErrorObject message).

Definition silent : nat -> request -> outcome :=
  fun _ _ => Resolved None.

(** A journal row with the given debit and credit strings. *)
Definition sample_row (d c : jsstring) : StatementRow :=
  {| date := lit "01/02/2024"; compteGeneral := lit "61740000";
     compteTier := []; libelle := lit "TPE 012345 COMMISSIONS HT";
     debit := d; credit := c |}.

(** A JSON string literal with the given characters. *)
Definition quoted (s : string) : jsstring := 34 :: lit s ++ [34].

(** The response text for one journal row, as the schema asks for it. *)
Definition row_text : jsstring :=
  lit "[{" ++ quoted "date" ++ lit ":" ++ quoted "01/02/2024" ++ lit ","
  ++ quoted "compteGeneral" ++ lit ":" ++ quoted "61740000" ++ lit ","
  ++ quoted "compteTier" ++ lit ":" ++ quoted EmptyString ++ lit ","
  ++ quoted "libelle" ++ lit ":" ++ quoted "TPE 012345 COMMISSIONS HT"
  ++ lit "," ++ quoted "debit" ++ lit ":" ++ quoted "12,50" ++ lit ","
  ++ quoted "credit" ++ lit ":" ++ quoted EmptyString ++ lit "}]".

(** A picked image, and the data URL its read ends with. *)
Definition sample_file : File :=
  {| name := lit "scan.png"; type := lit "image/png" |}.

Definition sample_url : jsstring := lit "data:image/png;base64,aGk=".

(** A text file, which no shell means to accept. *)
Definition text_file : File :=
  {| name := lit "notes.txt"; type := lit "text/plain" |}.

(** The value the sample response text parses to. *)
Definition sample_rows : json :=
  JArray [JObject [(lit "date", JString (lit "01/02/2024"));
                   (lit "compteGeneral", JString (lit "61740000"));
                   (lit "compteTier", JString []);
                   (lit "libelle", JString (lit "TPE 012345 COMMISSIONS HT"));
                   (lit "debit", JString (lit "12,50"));
                   (lit "credit", JString [])]].

(** Three stages of one flow of the sample file: waiting for the model,
    the row shown, and the failure shown when the model answers with a
    text that is not JSON; and the failure shown when the read could not
    be started. *)
Definition awaiting_model : config :=
  fst (onload (E := sample_engine) (lit "prompt") sample_file sample_url
         (app (fst (start_read sample_file None initial)))).

Definition shown_row : config :=
  {| app := {| data := Some sample_rows; loading := false;
               error := None; fileName := Some (lit "scan.png");
               isDragging := false |};
     inflight := None |}.

Definition shown_failure : config :=
  {| app := {| data := None; loading := false;
               error := Some (lit "The AI returned an invalid format. Please try a clearer image or a different file.");
               fileName := Some (lit "scan.png"); isDragging := false |};
     inflight := None |}.

Definition shown_start_failure : config :=
  {| app := {| data := None; loading := false;
               error := Some (lit "The object can not be read");
               fileName := Some (lit "scan.png"); isDragging := false |};
     inflight := None |}.

(** The phase a run ends in and the effects it had. *)
Definition outcome_of (r : option (config * list effect))
  : option (phase * list effect) :=
  match r with
  | Some (c, effs) => Some (phase_of (app c), effs)
  | None => None
  end.

End Samples.
Export Samples.

(** * Properties *)

(** ** The model on small inputs *)

Example parseFloat_decimal :
  parseFloat (lit "1234.56") = Dec false 123456 (-2).
Proof. reflexivity. Qed.

Example parseFloat_stops_at_space : parseFloat (lit "1 234.56") = Dec false 1 0.
Proof. reflexivity. Qed.

Example parseFloat_skips_leading_space :
  parseFloat (lit "  -1.5e3xyz") = Dec true 15 2.
Proof. reflexivity. Qed.

Example parseFloat_no_literal : parseFloat (lit "abc") = NaN.
Proof. reflexivity. Qed.

Example parseFloat_point_alone : parseFloat (lit ".") = NaN.
Proof. reflexivity. Qed.

Example amount_value_removes_points :
  amount_value (lit "1.234.567,89") = VNum (Dec false 123456789 (-2)).
Proof. reflexivity. Qed.

Example amount_value_first_comma_only :
  amount_value (lit "1,234,56") = VNum (Dec false 1234 (-3)).
Proof. reflexivity. Qed.

Example trim_both_ends : trim (0xA0 :: lit " [] " ++ [0xFEFF]) = lit "[]".
Proof. reflexivity. Qed.

Example split_data_url : split_comma_1 sample_url = Some (lit "aGk=").
Proof. reflexivity. Qed.

Example split_without_comma : split_comma_1 (lit "aGk=") = None.
Proof. reflexivity. Qed.

Example parse_nested :
  JSON_parse (lit " [1, -0.5e1, true, null, [[], {}]] ")
  = Some (JArray [JNumber (Dec false 1 0); JNumber (Dec true 5 0);
                  JBool true; JNull; JArray [JArray []; JObject []]]).
Proof. vm_compute. reflexivity. Qed.

Example parse_repeated_key :
  JSON_parse (lit "{" ++ quoted "a" ++ lit ":1," ++ quoted "b" ++ lit ":2,"
              ++ quoted "a" ++ lit ":3}")
  = Some (JObject [(lit "a", JNumber (Dec false 3 0));
                   (lit "b", JNumber (Dec false 2 0))]).
Proof. vm_compute. reflexivity. Qed.

Example parse_rejects :
  List.map JSON_parse
    [lit "not json"; []; lit "01"; lit "1."; lit "[1,]"; lit "[1 2]";
     lit "nulls"; lit "+1"; lit ".5"; lit "{a:1}"; quoted "a" ++ quoted "b"]
  = [None; None; None; None; None; None; None; None; None; None; None].
Proof. vm_compute. reflexivity. Qed.

Example parse_row_text :
  as_rows <$> JSON_parse row_text = Some (Some [sample_row (lit "12,50") []]).
Proof. vm_compute. reflexivity. Qed.

Example has_rows_cases :
  List.map (fun text => has_rows <$> JSON_parse text)
    [lit "[]"; lit "[0]"; lit "null"; lit "0"; lit "42"; lit "true";
     quoted EmptyString; quoted "abc"; lit "{}";
     lit "{" ++ quoted "length" ++ lit ":2}";
     lit "{" ++ quoted "length" ++ lit ":[" ++ quoted "0x10" ++ lit "]}";
     lit "{" ++ quoted "length" ++ lit ":{" ++ quoted "toString"
       ++ lit ":1}}"]
  = [Some (Some false); Some (Some true); Some (Some false);
     Some (Some false); Some (Some false); Some (Some false);
     Some (Some false); Some (Some true); Some (Some false);
     Some (Some true); Some (Some true); Some None].
Proof. vm_compute. reflexivity. Qed.

(** One document from selection to download: the file is read, the model
    is called once, the shell shows the row, and the sheet holds 12.5 in
    the debit column. *)
Example one_document :
  outcome_of (run_events (E := sample_engine) (lit "prompt") WithDropzone
                start
                [Select sample_file None; ReadDone (Loaded sample_url);
                 ModelDone (Resolved (Some row_text)); Download])
  = (fun rows req =>
       Some (Success rows,
             [ReadAsDataURL sample_file; ModelCall req; DownloadExcel rows]))
      (JArray [JObject [(lit "date", JString (lit "01/02/2024"));
                        (lit "compteGeneral", JString (lit "61740000"));
                        (lit "compteTier", JString []);
                        (lit "libelle",
                         JString (lit "TPE 012345 COMMISSIONS HT"));
                        (lit "debit", JString (lit "12,50"));
                        (lit "credit", JString [])]])
      {| model := lit "gemini-2.5-flash";
         text_part := lit "prompt";
         file_part := fileToGenerativePart (Some (lit "aGk=")) (lit "image/png");
         responseMimeType := lit "application/json";
         schema_properties :=
           [lit "date"; lit "compteGeneral"; lit "compteTier";
            lit "libelle"; lit "debit"; lit "credit"];
         schema_required :=
           [lit "date"; lit "compteGeneral"; lit "compteTier";
            lit "libelle"; lit "debit"; lit "credit"] |}
  /\ exports_number (handleDownloadExcel (Some [sample_row (lit "12,50") []]))
       1 4 (125 # 10).
Proof.
  split; [vm_compute; reflexivity|].
  eexists _, _. split; [vm_compute; reflexivity|].
  split; [reflexivity|]. reflexivity.
Qed.

(** ** [JSON.parse] never runs out of budget *)

Section ParserBudget.

Implicit Types (s r : jsstring).

Lemma skip_ws_length s : (length (skip_ws s) <= length s)%nat.
Proof.
  induction s as [|c s IH]; cbn; [lia|].
  destruct (is_json_ws c); cbn; lia.
Qed.

Lemma skip_ws_cons s c r :
  skip_ws s = c :: r -> (S (length r) <= length s)%nat.
Proof.
  intros H. pose proof (skip_ws_length s) as Hl. rewrite H in Hl.
  exact Hl.
Qed.

Lemma span_digits_length s :
  (length (snd (span_digits s)) <= length s)%nat.
Proof.
  induction s as [|c s IH]; cbn; [lia|].
  destruct (is_digit c); [|cbn; lia].
  destruct (span_digits s) as [d t]. cbn in *. lia.
Qed.

Lemma sign_prefix_length s :
  (length (snd (sign_prefix s)) <= length s)%nat.
Proof.
  destruct s as [|g s]; cbn; [lia|].
  destruct (g =? ch "+"); [cbn; lia|].
  destruct (g =? ch "-"); cbn; lia.
Qed.

Lemma signed_integer_length s e r :
  signed_integer s = Some (e, r) -> (length r <= length s)%nat.
Proof.
  unfold signed_integer.
  pose proof (sign_prefix_length s).
  pose proof (span_digits_length (snd (sign_prefix s))).
  destruct (fst (span_digits (snd (sign_prefix s)))); [discriminate|].
  intros [= _ <-]. lia.
Qed.

Lemma exponent_part_length s e r :
  exponent_part s = Some (e, r) -> (length r <= length s)%nat.
Proof.
  destruct s as [|c s]; cbn; [discriminate|].
  destruct (is_exponent_indicator c); [|discriminate].
  intros H. apply signed_integer_length in H. lia.
Qed.

Lemma exponent_length s e r :
  exponent s = Some (e, r) -> (length r <= length s)%nat.
Proof.
  destruct s as [|c s]; cbn [exponent].
  - intros [= _ <-]. lia.
  - destruct (is_exponent_indicator c).
    + apply exponent_part_length.
    + intros [= _ <-]. lia.
Qed.

Lemma fraction_length s f r :
  fraction s = Some (f, r) -> (length r <= length s)%nat.
Proof.
  destruct s as [|c s]; cbn [fraction].
  - intros [= _ <-]. lia.
  - destruct (c =? ch ".").
    + pose proof (span_digits_length s).
      destruct (fst (span_digits s)); [discriminate|].
      intros [= _ <-]. cbn. lia.
    + intros [= _ <-]. lia.
Qed.

Lemma json_number_length s x r :
  json_number s = Some (x, r) -> (length r <= length s)%nat.
Proof.
  assert (H : forall neg t, unsigned_number neg t = Some (x, r) ->
                            (length r <= length t)%nat).
  { intros neg t. unfold unsigned_number.
    pose proof (span_digits_length t).
    destruct (fst (span_digits t)) as [|d i]; [discriminate|].
    destruct (leading_zero _); [discriminate|].
    destruct (fraction _) as [[f r1]|] eqn:Hf; [|discriminate].
    destruct (exponent r1) as [[e r2]|] eqn:He; [|discriminate].
    apply fraction_length in Hf. apply exponent_length in He.
    intros [= _ <-]. lia. }
  destruct s as [|c s]; cbn [json_number]; [discriminate|].
  destruct (c =? ch "-"); intros Hu; apply H in Hu; cbn in *; lia.
Qed.

Lemma string_body_length : forall n s t r,
  (length s <= n)%nat -> string_body s = Some (t, r) ->
  (length r <= length s)%nat.
Proof.
  induction n as [|n IH]; intros s t r Hn.
  - destruct s; [discriminate | cbn in Hn; lia].
  - destruct s as [|c s]; [discriminate|]. cbn in Hn. cbn [string_body].
    destruct (c =? 34); [intros [= <- <-]; cbn; lia|].
    destruct (c =? 92).
    + destruct s as [|e r1]; [discriminate|].
      destruct (e =? ch "u").
      * destruct r1 as [|h1 [|h2 [|h3 [|h4 r2]]]]; try discriminate.
        destruct (hex4 h1 h2 h3 h4); [|discriminate].
        destruct (string_body r2) as [[t' rest]|] eqn:Hb; [|discriminate].
        intros [= <- <-]. apply IH in Hb; cbn in *; lia.
      * destruct (escape_unit e); [|discriminate].
        destruct (string_body r1) as [[t' rest]|] eqn:Hb; [|discriminate].
        intros [= <- <-]. apply IH in Hb; cbn in *; lia.
    + destruct (c <? 32); [discriminate|].
      destruct (string_body s) as [[t' rest]|] eqn:Hb; [|discriminate].
      intros [= <- <-]. apply IH in Hb; cbn in *; lia.
Qed.

Lemma keyword_result (w : string) (x : json) s :
  keyword w x s <> PFuel
  /\ forall y r, keyword w x s = POk y r -> (length r <= length s)%nat.
Proof.
  unfold keyword. destruct (starts_with _ _); split; try discriminate.
  intros y r [= _ <-]. rewrite length_skipn. lia.
Qed.

Lemma scalar_result s :
  scalar s <> PFuel
  /\ forall y r, scalar s = POk y r -> (length r <= length s)%nat.
Proof.
  unfold scalar. destruct s as [|c s]; [split; discriminate|].
  destruct (c =? 34).
  { destruct (string_body s) as [[t rest]|] eqn:Hb; split; try discriminate.
    intros y r [= _ <-].
    apply (string_body_length (length s)) in Hb; cbn; lia. }
  destruct (c =? ch "t"); [apply keyword_result|].
  destruct (c =? ch "f"); [apply keyword_result|].
  destruct (c =? ch "n"); [apply keyword_result|].
  destruct (json_number (c :: s)) as [[x rest]|] eqn:Hn; split;
    try discriminate.
  intros y r [= _ <-]. now apply json_number_length in Hn.
Qed.

Lemma parser_result : forall fuel,
  (forall s,
      ((2 * length s + 1 <= fuel)%nat -> parse_value fuel s <> PFuel)
      /\ forall x r, parse_value fuel s = POk x r -> (length r <= length s)%nat)
  /\ (forall s acc,
      ((2 * length s + 2 <= fuel)%nat -> parse_elements fuel s acc <> PFuel)
      /\ forall x r, parse_elements fuel s acc = POk x r ->
                     (length r <= length s)%nat)
  /\ (forall s acc,
      ((2 * length s + 2 <= fuel)%nat -> parse_members fuel s acc <> PFuel)
      /\ forall x r, parse_members fuel s acc = POk x r ->
                     (length r <= length s)%nat).
Proof.
  induction fuel as [|f (IHv & IHe & IHm)].
  { repeat split; intros; try discriminate; cbn in *; lia. }
  split; [|split].
  - intros s. cbn [parse_value].
    destruct (skip_ws s) as [|c r] eqn:Hs; [split; discriminate|].
    apply skip_ws_cons in Hs.
    destruct (c =? ch "[").
    { destruct (skip_ws r) as [|d r'] eqn:Hr; [split; discriminate|].
      apply skip_ws_cons in Hr.
      destruct (d =? ch "]").
      - split; [discriminate|]. intros x r0 [= _ <-]. lia.
      - destruct (IHe r []) as (Hfuel & Hlen). split.
        + intros Hb. apply Hfuel. lia.
        + intros x r0 Hok. apply Hlen in Hok. lia. }
    destruct (c =? ch "{").
    { destruct (skip_ws r) as [|d r'] eqn:Hr; [split; discriminate|].
      apply skip_ws_cons in Hr.
      destruct (d =? ch "}").
      - split; [discriminate|]. intros x r0 [= _ <-]. lia.
      - destruct (IHm r []) as (Hfuel & Hlen). split.
        + intros Hb. apply Hfuel. lia.
        + intros x r0 Hok. apply Hlen in Hok. lia. }
    destruct (scalar_result (c :: r)) as (Hfuel & Hlen). split; [auto|].
    intros x r0 Hok. apply Hlen in Hok. cbn in Hok. lia.
  - intros s acc. cbn [parse_elements].
    destruct (IHv s) as (Hfuel & Hlen).
    destruct (parse_value f s) as [x r1| |] eqn:Hv.
    + specialize (Hlen x r1 eq_refl).
      destruct (skip_ws r1) as [|d r'] eqn:Hr; [split; discriminate|].
      apply skip_ws_cons in Hr.
      destruct (d =? ch ",").
      * destruct (IHe r' (x :: acc)) as (Hfuel' & Hlen'). split.
        -- intros Hb. apply Hfuel'. lia.
        -- intros y r0 Hok. apply Hlen' in Hok. lia.
      * destruct (d =? ch "]"); split; try discriminate.
        intros y r0 [= _ <-]. lia.
    + split; discriminate.
    + split; [|discriminate]. intros Hb _. apply Hfuel; [lia | reflexivity].
  - intros s acc. cbn [parse_members].
    destruct (skip_ws s) as [|q r0] eqn:Hs; [split; discriminate|].
    apply skip_ws_cons in Hs.
    destruct (q =? 34); [|split; discriminate].
    destruct (string_body r0) as [[k r1]|] eqn:Hk; [|split; discriminate].
    apply (string_body_length (length r0)) in Hk; [|lia].
    destruct (skip_ws r1) as [|colon r2] eqn:Hc; [split; discriminate|].
    apply skip_ws_cons in Hc.
    destruct (colon =? ch ":"); [|split; discriminate].
    destruct (IHv r2) as (Hfuel & Hlen).
    destruct (parse_value f r2) as [x r3| |] eqn:Hv.
    + specialize (Hlen x r3 eq_refl).
      destruct (skip_ws r3) as [|d r'] eqn:Hr; [split; discriminate|].
      apply skip_ws_cons in Hr.
      destruct (d =? ch ",").
      * destruct (IHm r' (set_field k x acc)) as (Hfuel' & Hlen'). split.
        -- intros Hb. apply Hfuel'. lia.
        -- intros y r4 Hok. apply Hlen' in Hok. lia.
      * destruct (d =? ch "}"); split; try discriminate.
        intros y r4 [= _ <-]. lia.
    + split; discriminate.
    + split; [|discriminate]. intros Hb _. apply Hfuel; [lia | reflexivity].
Qed.

(** The budget [JSON_parse] gives to the parser is enough for every
    text, so a text is rejected only when it is not JSON. *)
Lemma parse_value_fuel (text : jsstring) :
  parse_value (S (2 * length text)) text <> PFuel.
Proof.
  destruct (parser_result (S (2 * length text))) as (Hv & _).
  apply (Hv text). lia.
Qed.

End ParserBudget.

(** ** The extraction client *)

Section ClientProperties.

Context {E : Engine}.
Variable prompt : jsstring.

Lemma run_extract (env : nat -> request -> outcome)
    (fileBase64 : option jsstring) (fileType : jsstring) :
  exists req,
    run env 0 (extractDataFromFile prompt fileBase64 fileType)
    = (settle (env 0%nat req), [req]).
Proof. eexists. reflexivity. Qed.

Lemma run_extract_text (env : nat -> request -> outcome)
    (fileBase64 : option jsstring) (fileType : jsstring) (text : jsstring) :
  (forall req, env 0%nat req = Resolved (Some text)) ->
  fst (run env 0 (extractDataFromFile prompt fileBase64 fileType))
  = settle (Resolved (Some text)).
Proof. intros H. cbn. now rewrite H. Qed.

(** C3. When the text of the model's response is empty once trimmed,
    [extractDataFromFile] throws; the error reports that the document
    might be unreadable or not a CMI statement, behind the generic prefix
    of the [catch] block, and no rows are returned. *)
Theorem extract_empty_response (env : nat -> request -> outcome)
    (fileBase64 : option jsstring) (fileType : jsstring) (text : jsstring) :
  (forall req, env 0%nat req = Resolved (Some text)) ->
  trim text = [] ->
  fst (run env 0 (extractDataFromFile prompt fileBase64 fileType))
  = Thrown (ErrorObject (lit "An error occurred while processing the statement: The AI returned an empty response. The document might be unreadable or not a CMI statement.")).
Proof.
  intros Henv Hempty. rewrite (run_extract_text _ _ _ _ Henv).
  unfold settle, try_block. rewrite Hempty. reflexivity.
Qed.


(** C7. Every call of [extractDataFromFile] sends exactly one request to
    the model, whatever the model answers to it and whatever it would
    answer to later ones; the result is decided by that one answer, and
    when the answer fails the [try] block the function throws an [Error]
    without asking again. *)
Theorem extract_single_request (env : nat -> request -> outcome)
    (fileBase64 : option jsstring) (fileType : jsstring) :
  exists req,
    run env 0 (extractDataFromFile prompt fileBase64 fileType)
    = (settle (env 0%nat req), [req])
    /\ match try_block (env 0%nat req) with
       | inl _ => exists message,
                    settle (env 0%nat req) = Thrown (ErrorObject message)
       | inr extractedData => settle (env 0%nat req) = Returned extractedData
       end.
Proof.
  destruct (run_extract env fileBase64 fileType) as [req Hrun].
  exists req. split; [exact Hrun|].
  unfold settle. destruct (try_block (env 0%nat req)) as [err|v]; [|reflexivity].
  unfold catch_block. destruct err as [m|]; [|eauto].
  destruct (includes _ _); eauto.
Qed.

(** C9. A response whose text is not empty and is JSON makes
    [extractDataFromFile] return the parsed value as it is, whatever its
    shape: the bare number 42 and an array holding an empty object are
    returned although neither is an array of journal rows. *)
Theorem extract_returns_parsed_value (env : nat -> request -> outcome)
    (fileBase64 : option jsstring) (fileType : jsstring)
    (text : jsstring) (extractedData : json) :
  (forall req, env 0%nat req = Resolved (Some text)) ->
  trim text <> [] ->
  JSON_parse (trim text) = Some extractedData ->
  fst (run env 0 (extractDataFromFile prompt fileBase64 fileType))
  = Returned extractedData
  /\ (fst (run (answers (lit "42")) 0
            (extractDataFromFile prompt fileBase64 fileType))
      = Returned (JNumber (Dec false 42 0))
      /\ as_rows (JNumber (Dec false 42 0)) = None)
  /\ (fst (run (answers (lit "[{}]")) 0
            (extractDataFromFile prompt fileBase64 fileType))
      = Returned (JArray [JObject []])
      /\ as_rows (JArray [JObject []]) = None).
Proof.
  intros Henv Hne Hparse. split; [|split; split; reflexivity].
  rewrite (run_extract_text _ _ _ _ Henv).
  unfold settle, try_block.
  destruct (trim text) as [|c r] eqn:Ht; [congruence|].
  now rewrite Hparse.
Qed.

End ClientProperties.

Lemma extract_empty_response_witness :
  fst (run (answers (lit "   ")) 0
         (extractDataFromFile (E := sample_engine) (lit "prompt")
            (Some (lit "aGk=")) (lit "image/png")))
  = Thrown (ErrorObject (lit "An error occurred while processing the statement: The AI returned an empty response. The document might be unreadable or not a CMI statement.")).
Proof.
  apply (extract_empty_response (E := sample_engine) (lit "prompt")
           (answers (lit "   ")) (Some (lit "aGk=")) (lit "image/png")
           (lit "   ")).
  - intros req. reflexivity.
  - vm_compute. reflexivity.
Defined.


Lemma extract_returns_parsed_value_witness :
  fst (run (answers (lit " [1, 2] ")) 0
         (extractDataFromFile (E := sample_engine) (lit "prompt")
            (Some (lit "aGk=")) (lit "image/png")))
  = Returned (JArray [JNumber (Dec false 1 0); JNumber (Dec false 2 0)]).
Proof.
  apply (extract_returns_parsed_value (E := sample_engine) (lit "prompt")
           (answers (lit " [1, 2] ")) (Some (lit "aGk=")) (lit "image/png")
           (lit " [1, 2] ")
           (JArray [JNumber (Dec false 1 0); JNumber (Dec false 2 0)])).
  - intros req. reflexivity.
  - vm_compute. discriminate.
  - vm_compute. reflexivity.
Defined.

(** ** The spreadsheet export *)

Section ExportProperties.

Implicit Types (data : list StatementRow) (row : StatementRow).
Implicit Types (m : gmap (nat * nat) cell) (r c R : nat).

Lemma place_row_export (hdr : list jsstring) row :
  hdr = [] \/ hdr = headers ->
  place_row hdr (export_row row) = (headers, row_values row).
Proof. intros [-> | ->]; reflexivity. Qed.

Lemma add_rows_export data : forall R (hdr : list jsstring) m,
  hdr = [] \/ hdr = headers ->
  add_rows R (dataForExport data) hdr m
  = (match data with [] => hdr | _ :: _ => headers end, put_all R data m).
Proof.
  induction data as [|row rest IH]; intros R hdr m Hhdr; [reflexivity|].
  cbn [dataForExport List.map add_rows put_all].
  rewrite (place_row_export hdr row Hhdr).
  change (List.map export_row rest) with (dataForExport rest).
  rewrite IH by (right; reflexivity).
  destruct rest; reflexivity.
Qed.

Lemma lookup_put_cells R row m r c :
  put_cells R (row_values row) m !! (r, c)
  = if decide (r = R) then
      match data_cell row c with
      | Some x => Some x
      | None => m !! (r, c)
      end
    else m !! (r, c).
Proof.
  unfold put_cells, row_values, encode_cell. cbn [fold_left].
  destruct (decide (r = R)) as [-> | Hne].
  - destruct c as [|[|[|[|[|[|c]]]]]];
      repeat first [ rewrite lookup_insert_eq; reflexivity
                   | rewrite lookup_insert_ne by (intros [=]; lia) ];
      reflexivity.
  - repeat rewrite lookup_insert_ne by (intros [=]; lia). reflexivity.
Qed.

Lemma lookup_put_all data : forall R m r c,
  put_all R data m !! (r, c)
  = match (if decide (R < r)%nat then data !! (r - S R)%nat else None) with
    | Some row =>
        match data_cell row c with
        | Some x => Some x
        | None => m !! (r, c)
        end
    | None => m !! (r, c)
    end.
Proof.
  induction data as [|row rest IH]; intros R m r c.
  - cbn. destruct (decide _); reflexivity.
  - cbn [put_all]. rewrite IH, lookup_put_cells.
    destruct (decide (S R < r)%nat) as [Hlt | Hge].
    + destruct (decide (R < r)%nat); [|lia].
      replace (r - S R)%nat with (S (r - S (S R))) by lia.
      rewrite lookup_cons.
      destruct (rest !! (r - S (S R))%nat) as [row'|]; [|].
      * destruct (data_cell row' c); [reflexivity|].
        destruct (decide (r = S R)); [lia | reflexivity].
      * destruct (decide (r = S R)); [lia | reflexivity].
    + destruct (decide (r = S R)) as [-> | Hne].
      * destruct (decide (R < S R)%nat); [|lia].
        replace (S R - S R)%nat with 0%nat by lia. reflexivity.
      * destruct (decide (R < r)%nat); [lia | reflexivity].
Qed.

Lemma lookup_put_header m r c :
  put_header 0 headers m !! (r, c)
  = if decide (r = 0%nat) then
      match header_cell <$> headers !! c with
      | Some x => Some x
      | None => m !! (r, c)
      end
    else m !! (r, c).
Proof.
  unfold headers, encode_cell. cbn [put_header].
  unfold encode_cell.
  destruct (decide (r = 0%nat)) as [-> | Hne].
  - destruct c as [|[|[|[|[|[|c]]]]]];
      repeat first [ rewrite lookup_insert_eq; reflexivity
                   | rewrite lookup_insert_ne by (intros [=]; lia) ];
      reflexivity.
  - repeat rewrite lookup_insert_ne by (intros [=]; lia). reflexivity.
Qed.

Lemma formatted_idem (x : option cell) :
  formatted <$> (formatted <$> x) = formatted <$> x.
Proof.
  destruct x as [[t v z]|]; [|reflexivity].
  destruct v; reflexivity.
Qed.

Lemma lookup_format_cell m (k k' : nat * nat) :
  format_cell m k !! k'
  = if decide (k = k') then formatted <$> m !! k' else m !! k'.
Proof.
  unfold format_cell.
  destruct (decide (k = k')) as [-> | Hne].
  - destruct (m !! k') as [cl|] eqn:Hk; [|now rewrite Hk].
    unfold formatted. cbn.
    destruct (cell_v cl) eqn:Hv;
      [now rewrite Hk | now rewrite lookup_insert_eq ..].
  - destruct (m !! k) as [cl|]; [|reflexivity].
    destruct (cell_v cl); [reflexivity | now rewrite lookup_insert_ne ..].
Qed.

Lemma lookup_format_amounts (Rs : list nat) : forall m r c,
  fold_left
    (fun m1 R =>
       fold_left (fun m2 C => format_cell m2 (encode_cell C R))
                 [4; 5]%nat m1) Rs m !! (r, c)
  = if decide (r ∈ Rs /\ (c = 4 \/ c = 5)%nat)
    then formatted <$> m !! (r, c) else m !! (r, c).
Proof.
  induction Rs as [|R Rs IH]; intros m r c.
  - cbn. destruct (decide _) as [[H _]|]; [|reflexivity].
    now apply elem_of_nil in H.
  - cbn [fold_left]. rewrite IH. unfold encode_cell.
    rewrite !lookup_format_cell.
    repeat case_decide; simplify_eq; rewrite ?formatted_idem;
      try reflexivity; exfalso;
      rewrite ?elem_of_cons in *; naive_solver.
Qed.

(** The exported sheet, cell by cell. *)
Lemma export_cell data r c :
  cell_at (handleDownloadExcel (Some data)) r c = expected_cell data r c.
Proof.
  change (cell_at (handleDownloadExcel (Some data)) r c)
    with (format_amounts
            {| s_c := 0; s_r := 0;
               e_c := Nat.max 0
                        (length (fst (add_rows 0 (dataForExport data) [] ∅)) - 1);
               e_r := length (dataForExport data) |}
            (put_header 0 (fst (add_rows 0 (dataForExport data) [] ∅))
               (snd (add_rows 0 (dataForExport data) [] ∅))) !! (r, c)).
  rewrite (add_rows_export data 0 [] ∅) by (left; reflexivity).
  cbn [fst snd]. unfold format_amounts.
  cbn [s_r e_r]. rewrite lookup_format_amounts.
  unfold dataForExport. rewrite length_map, Nat.sub_0_r.
  destruct data as [|row0 rest].
  - cbn [put_header put_all length seq].
    destruct (decide _) as [[H _]|]; [now apply elem_of_nil in H|].
    rewrite lookup_empty. destruct r; reflexivity.
  - rewrite lookup_put_header, lookup_put_all, lookup_empty.
    set (data := row0 :: rest).
    destruct r as [|i].
    + destruct (decide (_ /\ _)) as [[H _]|].
      { apply elem_of_seq in H. lia. }
      destruct (decide (0 = 0)%nat); [|lia].
      destruct (decide (0 < 0)%nat); [lia|].
      cbn [expected_cell data].
      destruct (header_cell <$> headers !! c); reflexivity.
    + destruct (decide (S i = 0)%nat); [lia|].
      destruct (decide (0 < S i)%nat); [|lia].
      replace (S i - 1)%nat with i by lia. cbn [expected_cell].
      destruct (data !! i) as [row|] eqn:Hi.
      * assert (Hlt : (i < length data)%nat) by (eapply lookup_lt_Some; eauto).
        destruct (decide (c = 4 \/ c = 5)%nat) as [Hc|Hc].
        -- destruct (decide (_ /\ _)) as [|Hn].
           ++ destruct (data_cell row c); reflexivity.
           ++ exfalso. apply Hn. split; [|exact Hc].
              apply elem_of_seq. lia.
        -- destruct (decide (_ /\ _)) as [[_ Hc']|]; [tauto|].
           destruct (data_cell row c); reflexivity.
      * destruct (decide (_ /\ _)); reflexivity.
Qed.

Lemma data_cell_amount row c (s : jsstring) :
  amount c row = Some s -> data_cell row c = Some (cell_of_value (amount_value s)).
Proof.
  destruct c as [|[|[|[|[|[|c]]]]]]; cbn; intros [= <-]; reflexivity.
Qed.

Lemma export_amount_cell data i row c (s : jsstring) :
  data !! i = Some row -> amount c row = Some s ->
  cell_at (handleDownloadExcel (Some data)) (S i) c
  = Some (formatted (cell_of_value (amount_value s))).
Proof.
  intros Hi Hs. rewrite export_cell. cbn [expected_cell]. rewrite Hi.
  rewrite (data_cell_amount _ _ _ Hs).
  destruct (decide (c = 4 \/ c = 5)%nat) as [|Hn]; [reflexivity|].
  exfalso. apply Hn.
  destruct c as [|[|[|[|[|[|c]]]]]]; cbn in Hs; try discriminate; auto.
Qed.

(** C1, as amended. A non-empty debit or credit string is exported as the
    number [parseFloat] reads after every [.] was removed and the first
    comma was turned into a point, in a numeric cell with the format
    [#,##0.00]. The decimal-comma value whose thousands are separated by
    a point, 1.234,56, is exported as exactly 1234.56; a space is not
    removed, and 1 234,56 is exported as 1. *)
Theorem export_amount_parsed data i row c (s : jsstring) :
  data !! i = Some row -> amount c row = Some s -> s <> [] ->
  cell_at (handleDownloadExcel (Some data)) (S i) c
  = Some {| cell_t := T_n;
            cell_v := VNum (parseFloat
                              (replace_first (ch ",") (lit ".")
                                 (replace_all (ch ".") [] s)));
            cell_z := Some (lit "#,##0.00") |}
  /\ (s = lit "1.234,56" ->
      exports_number (handleDownloadExcel (Some data)) (S i) c (123456 # 100))
  /\ (s = lit "1 234,56" ->
      exports_number (handleDownloadExcel (Some data)) (S i) c (1 # 1)).
Proof.
  intros Hi Hs Hne. unfold exports_number.
  rewrite (export_amount_cell _ _ _ _ _ Hi Hs).
  split; [|split].
  - destruct s; [congruence | reflexivity].
  - intros ->. eexists _, _. split; [reflexivity|].
    split; [reflexivity|]. reflexivity.
  - intros ->. eexists _, _. split; [reflexivity|].
    split; [reflexivity|]. reflexivity.
Qed.

(** C6. An empty debit or credit string leaves a blank cell in the sheet,
    a stub whose value is [null] and not the number zero, and the number
    format is found on no other cells than those of non-empty debit and
    credit strings. *)
Theorem export_empty_amount data i row c (s : jsstring) :
  data !! i = Some row -> amount c row = Some s -> s = [] ->
  cell_at (handleDownloadExcel (Some data)) (S i) c
  = Some {| cell_t := T_z; cell_v := VNull; cell_z := None |}
  /\ forall R C x,
       cell_at (handleDownloadExcel (Some data)) R C = Some x ->
       cell_z x <> None ->
       exists j row' s',
         R = S j /\ data !! j = Some row' /\ amount C row' = Some s'
         /\ s' <> [].
Proof.
  intros Hi Hs ->. rewrite (export_amount_cell _ _ _ _ _ Hi Hs).
  split; [reflexivity|].
  intros R C x Hx Hz. rewrite export_cell in Hx.
  destruct R as [|j]; cbn [expected_cell] in Hx.
  - destruct data; [discriminate|].
    destruct C as [|[|[|[|[|[|C]]]]]]; cbn in Hx; try discriminate;
      injection Hx as <-; now cbn in Hz.
  - destruct (data !! j) as [row'|] eqn:Hj; [|discriminate].
    destruct (decide (C = 4 \/ C = 5)%nat) as [HC|HC].
    + assert (exists s', amount C row' = Some s') as [s' Hs'].
      { destruct HC as [-> | ->]; cbn; eauto. }
      exists j, row', s'. repeat split; try assumption.
      intros ->. rewrite (data_cell_amount _ _ _ Hs') in Hx.
      injection Hx as <-. now cbn in Hz.
    + destruct C as [|[|[|[|[|[|C]]]]]]; cbn in Hx; try discriminate;
        try (injection Hx as <-; now cbn in Hz).
      all: exfalso; apply HC; auto.
Qed.

(** C8. For a non-empty row array the export saves one workbook under the
    name cmi_statement_data.xlsx, with the single sheet CMI Statement,
    whose first row holds the texts DATE, COMPTE GENERAL, COMPTE TIER,
    LIBELLE, DEBIT, CREDIT in this order and nothing more, and whose
    column widths are 15, 20, 20, 80, 15 and 15 characters. *)
Theorem export_layout data :
  data <> [] ->
  exists ws,
    handleDownloadExcel (Some data)
    = Some {| saved_as := lit "cmi_statement_data.xlsx";
              book := [(lit "CMI Statement", ws)] |}
    /\ cols ws = Some [15; 20; 20; 80; 15; 15]%nat
    /\ forall C,
         cells ws !! encode_cell C 0
         = (fun h => {| cell_t := T_s; cell_v := VStr h; cell_z := None |})
           <$> [lit "DATE"; lit "COMPTE GENERAL"; lit "COMPTE TIER";
                lit "LIBELLE"; lit "DEBIT"; lit "CREDIT"] !! C.
Proof.
  intros Hne. eexists. split; [reflexivity|]. split; [reflexivity|].
  intros C.
  pose proof (export_cell data 0 C) as H.
  destruct data; [congruence|]. exact H.
Qed.

(** C10. A debit or credit string that is not empty and starts no number,
    such as abc, does not stop the export and does not leave the cell
    blank: the cell holds NaN, is marked numeric and carries the format
    [#,##0.00]. *)
Theorem export_not_a_number data i row c (s : jsstring) :
  data !! i = Some row -> amount c row = Some s -> s = lit "abc" ->
  cell_at (handleDownloadExcel (Some data)) (S i) c
  = Some {| cell_t := T_n; cell_v := VNum NaN;
            cell_z := Some (lit "#,##0.00") |}
  /\ is_Some (handleDownloadExcel (Some data)).
Proof.
  intros Hi Hs ->. rewrite (export_amount_cell _ _ _ _ _ Hi Hs).
  split; [reflexivity | eexists; reflexivity].
Qed.

End ExportProperties.

(** C1, as stated, fails: the debit 1 234,56 is not exported as 1234.56.
    The dot pattern removes nothing, the comma becomes a point, and
    [parseFloat] stops at the space, so the cell holds 1. *)
Lemma export_space_separated_counterexample :
  cell_at (handleDownloadExcel (Some [sample_row (lit "1 234,56") []])) 1 4
  = Some {| cell_t := T_n; cell_v := VNum (Dec false 1 0);
            cell_z := Some (lit "#,##0.00") |}
  /\ ~ exports_number (handleDownloadExcel (Some [sample_row (lit "1 234,56") []]))
         1 4 (123456 # 100).
Proof.
  split; [vm_compute; reflexivity|].
  intros (x & q & Hcell & Hmv & Hq).
  vm_compute in Hcell. injection Hcell as <-.
  vm_compute in Hmv. injection Hmv as <-.
  vm_compute in Hq. discriminate.
Qed.

Lemma export_amount_parsed_witness :
  exports_number (handleDownloadExcel (Some [sample_row (lit "1.234,56") []]))
    1 4 (123456 # 100).
Proof.
  apply (export_amount_parsed [sample_row (lit "1.234,56") []] 0
           (sample_row (lit "1.234,56") []) 4 (lit "1.234,56")).
  - reflexivity.
  - reflexivity.
  - vm_compute. discriminate.
  - reflexivity.
Defined.

Lemma export_empty_amount_witness :
  cell_at (handleDownloadExcel (Some [sample_row [] (lit "12,50")])) 1 4
  = Some {| cell_t := T_z; cell_v := VNull; cell_z := None |}.
Proof.
  apply (export_empty_amount [sample_row [] (lit "12,50")] 0
           (sample_row [] (lit "12,50")) 4 []).
  - reflexivity.
  - reflexivity.
  - reflexivity.
Defined.

Lemma export_layout_witness :
  exists ws,
    handleDownloadExcel (Some [sample_row [] (lit "12,50")])
    = Some {| saved_as := lit "cmi_statement_data.xlsx";
              book := [(lit "CMI Statement", ws)] |}
    /\ cols ws = Some [15; 20; 20; 80; 15; 15]%nat.
Proof.
  destruct (export_layout [sample_row [] (lit "12,50")]) as (ws & H1 & H2 & _).
  - discriminate.
  - exists ws. split; assumption.
Defined.

Lemma export_not_a_number_witness :
  cell_at (handleDownloadExcel (Some [sample_row (lit "abc") []])) 1 4
  = Some {| cell_t := T_n; cell_v := VNum NaN;
            cell_z := Some (lit "#,##0.00") |}.
Proof.
  apply (export_not_a_number [sample_row (lit "abc") []] 0
           (sample_row (lit "abc") []) 4 (lit "abc")).
  - reflexivity.
  - reflexivity.
  - reflexivity.
Defined.

(** ** The application shell *)

Section ShellProperties.

Context {E : Engine}.
Variable prompt : jsstring.

Lemma spinner_while_loading (st : AppState) :
  loading st = true -> DropApp.renderContent st = DropApp.Spinner.
Proof. intros H. unfold DropApp.renderContent. now rewrite H. Qed.

Lemma loading_false_unless_spinner (st : AppState) :
  DropApp.renderContent st <> DropApp.Spinner -> loading st = false.
Proof.
  intros H. destruct (loading st) eqn:Hl; [|reflexivity].
  now apply spinner_while_loading in Hl.
Qed.

(** While nothing is awaited the shell is not loading, and conversely. *)
Lemma consistent_not_loading (c : config) :
  consistent c -> loading (app c) = false -> inflight c = None.
Proof.
  unfold consistent. destruct (inflight c) as [[f|f req k]|]; [| |reflexivity].
  - intros (H & _) H'. congruence.
  - intros (H & _) H'. congruence.
Qed.

Lemma consistent_loading (c : config) :
  consistent c -> loading (app c) = true ->
  error (app c) = None /\ data (app c) = None /\ inflight c <> None.
Proof.
  unfold consistent. destruct (inflight c) as [[f|f req k]|].
  - intros (_ & He & Hd) _. now repeat split.
  - intros (_ & He & Hd & _) _. now repeat split.
  - intros H H'. congruence.
Qed.

Lemma start_read_consistent (file : File) (threw : option thrown)
    (st : AppState) :
  consistent (fst (start_read file threw st)).
Proof. destruct threw; cbn; auto. Qed.

Lemma processFile_consistent (file : File) (threw : option thrown)
    (st : AppState) :
  loading st = false ->
  consistent (fst (DropApp.processFile file threw st)).
Proof.
  intros Hl. unfold DropApp.processFile.
  destruct (negb _); [exact Hl | apply start_read_consistent].
Qed.

(** From [Some r = Some (c', effs)] to a goal about [fst r]. *)
Ltac config_of_step :=
  let H := fresh "Hstep" in
  intros H; apply (f_equal (option_map fst)) in H;
  cbn [option_map fst] in H; injection H as H; rewrite <- H; clear H.

Lemma complete_consistent (c : config) (ev : event) (c' : config)
    (effs : list effect) :
  consistent c -> complete prompt c ev = Some (c', effs) ->
  consistent c'.
Proof.
  unfold complete, consistent at 1.
  destruct (inflight c) as [[f|f req k]|]; [| |discriminate].
  - intros (Hl & He & Hd). destruct ev as [| | | | | | |[result|]|];
      try discriminate; config_of_step; cbn; auto.
  - intros (Hl & He & Hd & ->). destruct ev; try discriminate.
    config_of_step. reflexivity.
Qed.

Lemma step_consistent (sh : shell) (c : config) (ev : event) (c' : config)
    (effs : list effect) :
  consistent c -> step prompt sh c ev = Some (c', effs) ->
  consistent c'.
Proof.
  intros Hc. destruct sh; cbn [step].
  - unfold App.step. destruct ev; try discriminate.
    + destruct (loading (app c)); [discriminate|].
      config_of_step. apply start_read_consistent.
    + destruct (data (app c)); [|discriminate]. now config_of_step.
    + now apply complete_consistent.
    + now apply complete_consistent.
  - unfold DropApp.step.
    destruct ev; try (now apply complete_consistent);
      destruct (DropApp.renderContent (app c)) eqn:Hv; try discriminate;
      assert (Hl : loading (app c) = false)
        by (apply loading_false_unless_spinner; congruence);
      pose proof (consistent_not_loading c Hc Hl) as Hi;
      config_of_step; try exact Hc;
      try (now apply processFile_consistent);
      unfold consistent; cbn; rewrite Hi; try exact Hl; reflexivity.
Qed.

Lemma reachable_consistent (sh : shell) (c : config) :
  reachable prompt sh c -> consistent c.
Proof.
  induction 1 as [|c ev c' effs _ IH Hstep]; [reflexivity|].
  eapply step_consistent; eauto.
Qed.

(** A flow is in flight only while the shell is loading. *)
Lemma inflight_loading (sh : shell) (c : config) :
  reachable prompt sh c ->
  inflight c <> None <-> loading (app c) = true.
Proof.
  intros Hr. apply reachable_consistent in Hr. split.
  - intros Hi. destruct (loading (app c)) eqn:Hl; [reflexivity|].
    now apply consistent_not_loading in Hl.
  - intros Hl. now apply consistent_loading in Hl.
Qed.

(** While loading, no handler of the page can run. *)
Lemma loading_only_completes (sh : shell) (c : config) (ev : event) :
  consistent c -> loading (app c) = true ->
  step prompt sh c ev = complete prompt c ev.
Proof.
  intros Hc Hl. destruct (consistent_loading c Hc Hl) as (He & Hd & Hi).
  destruct sh; cbn [step].
  - unfold App.step. rewrite Hl, Hd.
    unfold complete. destruct ev; try reflexivity;
      destruct (inflight c) as [[?|? ? ?]|]; reflexivity.
  - unfold DropApp.step. rewrite (spinner_while_loading _ Hl).
    unfold complete. destruct ev; try reflexivity;
      destruct (inflight c) as [[?|? ? ?]|]; reflexivity.
Qed.

(** The test of the shell on an array is whether it has an element. *)
Lemma has_rows_array (l : list json) :
  has_rows (JArray l) = Some (match l with [] => false | _ :: _ => true end).
Proof. destruct l; reflexivity. Qed.

Lemma as_rows_has_rows (v : json) (rows : list StatementRow) :
  as_rows v = Some rows ->
  has_rows v = Some (match rows with [] => false | _ :: _ => true end).
Proof.
  destruct v as [| | | |l|]; try discriminate. cbn [as_rows].
  rewrite has_rows_array. destruct l as [|x l]; cbn [all_rows].
  - now intros [= <-].
  - destruct (as_row x); [|discriminate].
    destruct (all_rows l); [|discriminate]. now intros [= <-].
Qed.

(** C5, as amended. From Loading a shell moves only when the read or the
    model call of the flow in flight completes. A completed read keeps
    it loading and calls the model once; a failed read gives Error. When
    the extraction returns an array of journal rows, the shell enters
    Success with it if and only if the array is not empty, and Error
    with the no-data message when it is empty; when the extraction
    throws, the shell enters Error with the message thrown. Nothing is
    said of a returned value that is no array of journal rows. *)
Theorem loading_transitions (sh : shell) (c : config) (ev : event)
    (c' : config) (effs : list effect) :
  reachable prompt sh c ->
  phase_of (app c) = Loading ->
  step prompt sh c ev = Some (c', effs) ->
  match ev with
  | ReadDone (Loaded _) =>
      phase_of (app c') = Loading /\ exists req, effs = [ModelCall req]
  | ReadDone ReadFailed =>
      phase_of (app c')
      = Error (lit "Failed to read the file. Please try again.")
  | ModelDone response =>
      match settle response with
      | Returned extracted =>
          forall rows, as_rows extracted = Some rows ->
            match rows with
            | _ :: _ => phase_of (app c') = Success extracted
            | [] =>
                phase_of (app c')
                = Error (lit "No data could be extracted from the document. It might be empty or in an unsupported format.")
            end
      | Thrown err =>
          phase_of (app c')
          = Error (message_of err
                     (lit "An unexpected error occurred during processing."))
      end
  | _ => False
  end.
Proof.
  intros Hr Hph Hstep.
  pose proof (reachable_consistent sh c Hr) as Hc.
  assert (Hl : loading (app c) = true).
  { unfold phase_of in Hph. destruct (loading (app c)); [reflexivity|].
    destruct (error (app c)); [discriminate|].
    destruct (data (app c)); discriminate. }
  rewrite (loading_only_completes sh c ev Hc Hl) in Hstep.
  destruct (consistent_loading c Hc Hl) as (He & Hd & _).
  unfold complete in Hstep. unfold consistent in Hc.
  destruct (inflight c) as [[f|f req k]|]; [| |discriminate].
  - destruct ev as [| | | | | | |[result|]|]; try discriminate;
      injection Hstep as <- <-; cbn.
    + unfold phase_of. rewrite Hl. eauto.
    + reflexivity.
  - destruct Hc as (_ & _ & _ & ->).
    destruct ev; try discriminate. injection Hstep as <- <-.
    cbn. unfold after_extract, phase_of.
    destruct (settle response) as [extracted|err]; cbn; [|reflexivity].
    intros rows Hrows. rewrite (as_rows_has_rows _ _ Hrows).
    destruct rows; cbn; rewrite ?He; reflexivity.
Qed.

(** In the shell with the drop zone a file whose declared type is not
    accepted only sets the error: nothing is read, nothing is awaited. *)
Lemma processFile_rejects (file : File) (threw : option thrown)
    (st : AppState) :
  DropApp.accepted (type file) = false ->
  DropApp.processFile file threw st
  = ({| app := setError (DropApp.unsupported_message (type file)) st;
        inflight := None |}, []).
Proof. intros H. unfold DropApp.processFile. now rewrite H. Qed.

Lemma rejected_file_starts_nothing (c : config) (file : File)
    (threw : option thrown) (ev : event) (c' : config) (effs : list effect) :
  ev = Select file threw \/ ev = Drop file threw ->
  DropApp.accepted (type file) = false ->
  step prompt WithDropzone c ev = Some (c', effs) ->
  effs = [] /\ inflight c' = None
  /\ error (app c') = Some (DropApp.unsupported_message (type file)).
Proof.
  intros [-> | ->] Hacc; cbn [step]; unfold DropApp.step;
    destruct (DropApp.renderContent (app c)); try discriminate;
    unfold DropApp.handleFileChange, DropApp.handleDrop;
    rewrite (processFile_rejects _ _ _ Hacc);
    intros [= <- <-]; auto.
Qed.

End ShellProperties.

Lemma loading_transitions_witness :
  phase_of
    (after_extract (E := sample_engine)
       (settle (E := sample_engine) (Resolved (Some row_text)))
       (app awaiting_model))
  = Success sample_rows.
Proof.
  pose (c1 := fst (start_read sample_file None initial)).
  pose (response := Resolved (Some row_text)).
  pose (c3 := {| app := after_extract (E := sample_engine)
                          (settle (E := sample_engine) response)
                          (app awaiting_model);
                 inflight := None |}).
  assert (Hreach : reachable (E := sample_engine) (lit "prompt")
                     WithDropzone awaiting_model).
  { apply (reach_step (lit "prompt") WithDropzone c1
             (ReadDone (Loaded sample_url)) awaiting_model
             (snd (onload (E := sample_engine) (lit "prompt") sample_file
                     sample_url (app c1)))).
    - apply (reach_step (lit "prompt") WithDropzone start
               (Select sample_file None) c1
               (snd (start_read sample_file None initial))).
      + apply reach_start.
      + reflexivity.
    - reflexivity. }
  exact (loading_transitions (E := sample_engine) (lit "prompt")
           WithDropzone awaiting_model (ModelDone response) c3 []
           Hreach eq_refl eq_refl
           [sample_row (lit "12,50") []] eq_refl).
Defined.

(** C5, as stated, fails: the model answers with the JSON string abc
    (in quotation marks) and the extraction returns that string, which is
    no row array. The outcome is none of a non-empty row array, and yet
    neither shell goes to Error: [setError] is never called, and the
    handler ends with the error unset, the string in [data] and loading
    off. *)
Lemma no_error_without_rows_counterexample :
  let text := quoted "abc" in
  let events := [Select sample_file None; ReadDone (Loaded sample_url);
                 ModelDone (Resolved (Some text))] in
  let variables (r : config * list effect) :=
    (data (app (fst r)), error (app (fst r)), loading (app (fst r))) in
  settle (E := sample_engine) (Resolved (Some text))
  = Returned (JString (lit "abc"))
  /\ (forall l, JString (lit "abc") <> JArray l)
  /\ as_rows (JString (lit "abc")) = None
  /\ variables <$> run_events (E := sample_engine) (lit "prompt")
                     WithDropzone start events
     = Some (Some (JString (lit "abc")), None, false)
  /\ variables <$> run_events (E := sample_engine) (lit "prompt")
                     AppTsx start events
     = Some (Some (JString (lit "abc")), None, false).
Proof.
  cbv zeta. split; [vm_compute; reflexivity|].
  split; [intros l; discriminate|].
  split; [reflexivity|].
  split; vm_compute; reflexivity.
Qed.

(** C2 on the shell of src/App.tsx: [handleFileChange] has no check of
    the declared type. A text file is read and, once read, sent to the
    model with its type, while the shell with [processFile] answers the
    same selection with the unsupported-type error and starts nothing. *)
Theorem App_reads_unsupported_type :
  let req :=
    {| model := lit "gemini-2.5-flash";
       text_part := lit "prompt";
       file_part := fileToGenerativePart (Some (lit "aGk=")) (lit "text/plain");
       responseMimeType := lit "application/json";
       schema_properties :=
         [lit "date"; lit "compteGeneral"; lit "compteTier";
          lit "libelle"; lit "debit"; lit "credit"];
       schema_required :=
         [lit "date"; lit "compteGeneral"; lit "compteTier";
          lit "libelle"; lit "debit"; lit "credit"] |} in
  DropApp.accepted (type text_file) = false
  /\ outcome_of (run_events (E := sample_engine) (lit "prompt") AppTsx start
                   [Select text_file None;
                    ReadDone (Loaded (lit "data:text/plain;base64,aGk="))])
     = Some (Loading, [ReadAsDataURL text_file; ModelCall req])
  /\ outcome_of (run_events (E := sample_engine) (lit "prompt") WithDropzone
                   start [Select text_file None])
     = Some (Error (lit "Unsupported file type: text/plain. Please upload a PDF or image file."),
             []).
Proof.
  cbv zeta. split; [reflexivity|]. split; vm_compute; reflexivity.
Qed.

(** * Further properties of the code *)

(** ** The extraction client: what succeeds and how failures are reported *)

Section ClientReports.

Context {E : Engine}.
Variable prompt : jsstring.

Lemma starts_with_app (p s : jsstring) : starts_with p (p ++ s) = true.
Proof.
  induction p as [|c p IH]; [reflexivity|].
  cbn. now rewrite N.eqb_refl, IH.
Qed.

Lemma includes_here (needle s : jsstring) :
  starts_with needle s = true -> includes needle s = true.
Proof. intros H. destruct s; cbn; now rewrite H. Qed.

Lemma includes_app (needle before after : jsstring) :
  includes needle (before ++ needle ++ after) = true.
Proof.
  induction before as [|c before IH].
  - cbn [Datatypes.app]. apply includes_here, starts_with_app.
  - cbn [Datatypes.app includes]. rewrite IH. apply orb_true_r.
Qed.

Lemma includes_nonempty (needle s : jsstring) :
  needle <> [] -> includes needle s = true -> s <> [].
Proof. intros Hn H ->. destruct needle; [congruence | discriminate]. Qed.


(** X2. When the call to the model is rejected with an [Error] whose
    message does not contain json in any letter case, the function throws
    an [Error] that carries the same message behind the prefix
    "An error occurred while processing the statement: ". *)
Theorem extract_wraps_rejection (env : nat -> request -> outcome)
    (fileBase64 : option jsstring) (fileType : jsstring)
    (message : jsstring) :
  (forall req, env 0%nat req = Rejected (ErrorObject message)) ->
  includes (lit "json") (toLowerCase message) = false ->
  fst (run env 0 (extractDataFromFile prompt fileBase64 fileType))
  = Thrown (ErrorObject
              (lit "An error occurred while processing the statement: "
               ++ message)).
Proof.
  intros Henv Hmsg. cbn. rewrite Henv. cbn. now rewrite Hmsg.
Qed.

(** X3. The [catch] block tells a failed [JSON.parse] from other
    failures only by the letters json in the message. A rejection of the
    call itself whose message holds these letters in any case, such as a
    transport error that names JSON, is therefore reported as an invalid
    format returned by the AI, and its own message is dropped. *)
Theorem extract_json_word_reported_as_format
    (env : nat -> request -> outcome)
    (fileBase64 : option jsstring) (fileType : jsstring)
    (before word after : jsstring) :
  (forall req,
      env 0%nat req = Rejected (ErrorObject (before ++ word ++ after))) ->
  toLowerCase word = lit "json" ->
  fst (run env 0 (extractDataFromFile prompt fileBase64 fileType))
  = Thrown (ErrorObject (lit "The AI returned an invalid format. Please try a clearer image or a different file.")).
Proof.
  intros Henv Hword. cbn. rewrite Henv. cbn.
  unfold toLowerCase in *. rewrite !map_app, Hword.
  now rewrite includes_app.
Qed.

(** X4. Whatever [extractDataFromFile] throws is an [Error] object with
    a message that is not empty: the invalid-format message, the
    unknown-error message, or the generic prefix followed by the message
    of the underlying failure. *)
Theorem extract_throws_error_objects (env : nat -> request -> outcome)
    (fileBase64 : option jsstring) (fileType : jsstring) (e : thrown) :
  fst (run env 0 (extractDataFromFile prompt fileBase64 fileType))
  = Thrown e ->
  exists message,
    e = ErrorObject message /\ message <> []
    /\ (message = lit "The AI returned an invalid format. Please try a clearer image or a different file."
        \/ message = lit "An unknown error occurred during AI processing."
        \/ exists underlying,
             message
             = lit "An error occurred while processing the statement: "
               ++ underlying).
Proof.
  destruct (run_extract prompt env fileBase64 fileType) as [req Hrun].
  rewrite Hrun. cbn [fst]. unfold settle.
  destruct (try_block (env 0%nat req)) as [err|v]; [|discriminate].
  intros [= <-]. unfold catch_block.
  destruct err as [m|].
  - destruct (includes _ _).
    + eexists. split; [reflexivity|]. split; [discriminate | now left].
    + eexists. split; [reflexivity|]. split; [discriminate|].
      right; right. now exists m.
  - eexists. split; [reflexivity|]. split; [discriminate|].
    right; now left.
Qed.

(** X5. When the response of the model has no text at all, reading
    [response.text.trim()] throws inside the [try] block; the user is
    not told of an empty response but gets the engine's [TypeError]
    message behind the generic prefix (provided that message does not
    contain json). *)
Theorem extract_response_without_text (env : nat -> request -> outcome)
    (fileBase64 : option jsstring) (fileType : jsstring) :
  (forall req, env 0%nat req = Resolved None) ->
  includes (lit "json") (toLowerCase undefinedTrimMessage) = false ->
  fst (run env 0 (extractDataFromFile prompt fileBase64 fileType))
  = Thrown (ErrorObject
              (lit "An error occurred while processing the statement: "
               ++ undefinedTrimMessage)).
Proof.
  intros Henv Hmsg. cbn. rewrite Henv. cbn. now rewrite Hmsg.
Qed.

End ClientReports.


Lemma extract_wraps_rejection_witness :
  fst (run (rejects (lit "fetch failed")) 0
         (extractDataFromFile (E := sample_engine) (lit "prompt")
            (Some (lit "aGk=")) (lit "image/png")))
  = Thrown (ErrorObject
              (lit "An error occurred while processing the statement: "
               ++ lit "fetch failed")).
Proof.
  apply (extract_wraps_rejection (E := sample_engine) (lit "prompt")
           (rejects (lit "fetch failed")) (Some (lit "aGk="))
           (lit "image/png") (lit "fetch failed")).
  - intros req. reflexivity.
  - vm_compute. reflexivity.
Defined.

Lemma extract_json_word_reported_as_format_witness :
  fst (run (rejects (lit "Unexpected token < in JSON at position 0")) 0
         (extractDataFromFile (E := sample_engine) (lit "prompt")
            (Some (lit "aGk=")) (lit "image/png")))
  = Thrown (ErrorObject (lit "The AI returned an invalid format. Please try a clearer image or a different file.")).
Proof.
  apply (extract_json_word_reported_as_format (E := sample_engine)
           (lit "prompt")
           (rejects (lit "Unexpected token < in JSON at position 0"))
           (Some (lit "aGk=")) (lit "image/png")
           (lit "Unexpected token < in ") (lit "JSON")
           (lit " at position 0")).
  - intros req. reflexivity.
  - vm_compute. reflexivity.
Defined.

Lemma extract_throws_error_objects_witness :
  exists message,
    ErrorObject (lit "An unknown error occurred during AI processing.")
    = ErrorObject message /\ message <> [].
Proof.
  destruct (extract_throws_error_objects (E := sample_engine) (lit "prompt")
              (fun _ _ => Rejected NotAnError) (Some (lit "aGk="))
              (lit "image/png")
              (ErrorObject
                 (lit "An unknown error occurred during AI processing.")))
    as (message & Heq & Hne & _).
  - vm_compute. reflexivity.
  - exists message. split; assumption.
Defined.

Lemma extract_response_without_text_witness :
  fst (run silent 0
         (extractDataFromFile (E := sample_engine) (lit "prompt")
            (Some (lit "aGk=")) (lit "image/png")))
  = Thrown (ErrorObject
              (lit "An error occurred while processing the statement: "
               ++ lit "Cannot read properties of undefined (reading 'trim')")).
Proof.
  apply (extract_response_without_text (E := sample_engine) (lit "prompt")
           silent (Some (lit "aGk=")) (lit "image/png")).
  - intros req. reflexivity.
  - vm_compute. reflexivity.
Defined.

(** ** The export: text columns, extent of the sheet, amounts *)

Section ExportFurther.

Implicit Types (data : list StatementRow) (row : StatementRow).
Implicit Types (g f ds : jsstring).

(** X6. The date, the two account codes and the label of journal row
    [i] are written to row [i + 1] of the sheet as they are, in text
    cells without a number format: an account code such as 34210000 is
    never turned into a number. *)
Theorem export_text_columns data i row :
  data !! i = Some row ->
  let sheet := handleDownloadExcel (Some data) in
  let text s := Some {| cell_t := T_s; cell_v := VStr s; cell_z := None |} in
  cell_at sheet (S i) 0 = text (date row)
  /\ cell_at sheet (S i) 1 = text (compteGeneral row)
  /\ cell_at sheet (S i) 2 = text (compteTier row)
  /\ cell_at sheet (S i) 3 = text (libelle row).
Proof.
  intros Hi. cbv zeta. rewrite !export_cell. cbn [expected_cell].
  rewrite Hi. repeat split; reflexivity.
Qed.

(** X7. The sheet has cells exactly in the rectangle of six columns and
    one header row plus one row per journal row, which is also the range
    it declares; for an empty row array it has no cell at all, not even
    the header row. *)
Theorem export_extent data :
  ref <$> sheet_of (handleDownloadExcel (Some data))
  = Some (Some {| s_c := 0; s_r := 0;
                  e_c := match data with [] => 0 | _ :: _ => 5 end;
                  e_r := length data |})
  /\ forall R C,
       is_Some (cell_at (handleDownloadExcel (Some data)) R C)
       <-> data <> [] /\ (R <= length data)%nat /\ (C < 6)%nat.
Proof.
  split.
  - change (ref <$> sheet_of (handleDownloadExcel (Some data)))
      with (Some (Some
              {| s_c := 0; s_r := 0;
                 e_c := Nat.max 0
                          (length (fst (add_rows 0 (dataForExport data) [] ∅))
                           - 1);
                 e_r := length (dataForExport data) |})).
    rewrite (add_rows_export data 0 [] ∅) by (left; reflexivity).
    unfold dataForExport. rewrite length_map.
    destruct data; reflexivity.
  - intros R C. rewrite export_cell.
    destruct R as [|i]; cbn [expected_cell].
    + destruct data as [|row rest].
      * split; [intros [x Hx]; discriminate | intros (H & _); congruence].
      * split.
        -- intros [x Hx]. split; [discriminate|]. split; [cbn; lia|].
           destruct C as [|[|[|[|[|[|C]]]]]]; try lia. discriminate.
        -- intros (_ & _ & HC).
           destruct C as [|[|[|[|[|[|C]]]]]]; try lia; eexists; reflexivity.
    + destruct (data !! i) as [row|] eqn:Hi.
      * pose proof (lookup_lt_Some _ _ _ Hi) as Hlt.
        assert (Hne : data <> []) by (intros ->; discriminate).
        split.
        -- intros [x Hx]. split; [exact Hne|]. split; [lia|].
           destruct C as [|[|[|[|[|[|C]]]]]]; try lia.
           destruct (decide _); discriminate.
        -- intros (_ & _ & HC).
           destruct C as [|[|[|[|[|[|C]]]]]]; try lia;
             destruct (decide _); eexists; reflexivity.
      * apply lookup_ge_None in Hi. split.
        -- intros [x Hx]. discriminate.
        -- intros (_ & Hle & _). lia.
Qed.

End ExportFurther.

Lemma export_text_columns_witness :
  cell_at (handleDownloadExcel (Some [sample_row (lit "12,50") []])) 1 1
  = Some {| cell_t := T_s; cell_v := VStr (lit "61740000");
            cell_z := None |}.
Proof.
  apply (export_text_columns [sample_row (lit "12,50") []] 0
           (sample_row (lit "12,50") [])).
  reflexivity.
Defined.

Section AmountParsing.

Implicit Types (g f ds s r : jsstring) (c : N).

Lemma digit_cases c :
  is_digit c = true ->
  c = 48 \/ c = 49 \/ c = 50 \/ c = 51 \/ c = 52 \/ c = 53 \/ c = 54
  \/ c = 55 \/ c = 56 \/ c = 57.
Proof.
  unfold is_digit. rewrite andb_true_iff, !N.leb_le. lia.
Qed.

(** A digit is neither white space, nor a sign, a point, a comma or the
    first letter of Infinity. *)
Lemma digit_is_plain c s :
  is_digit c = true ->
  is_white_space c = false /\ (c =? ch "+") = false
  /\ (c =? ch "-") = false /\ (c =? ch ".") = false
  /\ (c =? ch ",") = false
  /\ starts_with (lit "Infinity") (c :: s) = false.
Proof.
  intros H. apply digit_cases in H.
  repeat destruct H as [-> | H]; try subst c; repeat split; reflexivity.
Qed.

Lemma span_digits_app ds r :
  Forall (fun c => is_digit c = true) ds ->
  match r with [] => True | c :: _ => is_digit c = false end ->
  span_digits (ds ++ r) = (ds, r).
Proof.
  intros Hds Hr. induction Hds as [|c ds Hc _ IH].
  - destruct r as [|c r]; [reflexivity|]. cbn. now rewrite Hr.
  - cbn. now rewrite Hc, IH.
Qed.

Lemma replace_all_points g :
  Forall (fun c => is_digit c = true \/ c = ch ".") g ->
  replace_all (ch ".") [] g = List.filter is_digit g.
Proof.
  induction 1 as [|c g Hc _ IH]; [reflexivity|].
  unfold replace_all in *. cbn [flat_map List.filter]. rewrite IH.
  destruct Hc as [Hd | ->].
  - rewrite Hd. now destruct (digit_is_plain c [] Hd) as (_ & _ & _ & -> & _).
  - reflexivity.
Qed.

Lemma replace_all_digits f :
  Forall (fun c => is_digit c = true) f -> replace_all (ch ".") [] f = f.
Proof.
  induction 1 as [|c f Hc _ IH]; [reflexivity|].
  unfold replace_all in *. cbn [flat_map]. rewrite IH.
  now destruct (digit_is_plain c [] Hc) as (_ & _ & _ & -> & _).
Qed.

Lemma replace_first_comma ds r :
  Forall (fun c => is_digit c = true) ds ->
  replace_first (ch ",") (lit ".") (ds ++ ch "," :: r)
  = ds ++ ch "." :: r.
Proof.
  induction 1 as [|c ds Hc _ IH].
  - cbn [Datatypes.app replace_first]. now rewrite N.eqb_refl.
  - cbn [Datatypes.app replace_first]. rewrite IH.
    now destruct (digit_is_plain c [] Hc) as (_ & _ & _ & _ & -> & _).
Qed.

Lemma filter_digits_all g :
  Forall (fun c => is_digit c = true) (List.filter is_digit g).
Proof.
  apply List.Forall_forall. intros c Hc.
  now apply List.filter_In in Hc.
Qed.

(** [parseFloat] on digits, a point and digits reads all of it. *)
Lemma parseFloat_digits_point_digits ds f :
  ds <> [] ->
  Forall (fun c => is_digit c = true) ds ->
  Forall (fun c => is_digit c = true) f ->
  parseFloat (ds ++ ch "." :: f)
  = Dec false (digits_value (ds ++ f)) (- Z.of_nat (length f)).
Proof.
  intros Hne Hds Hf. destruct ds as [|d ds]; [congruence|].
  pose proof (List.Forall_inv Hds) as Hd.
  destruct (digit_is_plain d (ds ++ ch "." :: f) Hd)
    as (Hws & Hplus & Hminus & _ & _ & Hinf).
  unfold parseFloat. cbn [Datatypes.app trimStart]. rewrite Hws.
  unfold decimal_prefix. rewrite Hplus, Hminus.
  unfold unsigned_decimal_prefix. rewrite Hinf.
  change (d :: ds ++ ch "." :: f) with ((d :: ds) ++ ch "." :: f).
  rewrite (span_digits_app (d :: ds) (ch "." :: f) Hds) by reflexivity.
  rewrite N.eqb_refl.
  rewrite <- (app_nil_r f) at 1.
  rewrite (span_digits_app f [] Hf) by exact I.
  reflexivity.
Qed.

(** The digits of an amount, read by the export. *)
Lemma amount_value_digits g f :
  Forall (fun c => is_digit c = true \/ c = ch ".") g ->
  List.filter is_digit g <> [] ->
  Forall (fun c => is_digit c = true) f ->
  amount_value (g ++ ch "," :: f)
  = VNum (Dec false (digits_value (List.filter is_digit g ++ f))
                    (- Z.of_nat (length f))).
Proof.
  intros Hg Hne Hf. unfold amount_value.
  destruct (g ++ ch "," :: f) as [|c0 s0] eqn:Hs.
  { destruct g; discriminate. }
  rewrite <- Hs. clear Hs c0 s0. f_equal.
  unfold replace_all. rewrite flat_map_app. cbn [flat_map].
  fold (replace_all (ch ".") [] g). fold (replace_all (ch ".") [] f).
  rewrite (replace_all_points g Hg), (replace_all_digits f Hf).
  change ((if ch "," =? ch "." then [] else [ch ","]) ++ f)
    with (ch "," :: f).
  rewrite (replace_first_comma _ f (filter_digits_all g)).
  apply parseFloat_digits_point_digits; auto using filter_digits_all.
Qed.

(** X8. An amount written with digits, optional points between them as
    thousands separators, a comma and decimals, of at most twenty digits
    in all, is exported as the Number of the numeral it writes: with [n]
    the integer spelled by its digits (the points dropped) and [k] the
    number of decimals, the cell holds the double nearest to [n / 10^k],
    ties to even, which is what the same numeric literal denotes. Beyond
    sixteen digits this need not be the number written:
    9.007.199.254.740.993,00 is exported as 9007199254740992. *)
Theorem amount_value_decimal_comma g f :
  Forall (fun c => is_digit c = true \/ c = ch ".") g ->
  List.filter is_digit g <> [] ->
  Forall (fun c => is_digit c = true) f ->
  (length (List.filter is_digit g ++ f) <= 20)%nat ->
  cell_double (amount_value (g ++ ch "," :: f))
  = Some (nearest_double false
            (Z.of_N (digits_value (List.filter is_digit g ++ f)))
            (10 ^ Z.of_nat (length f))).
Proof.
  intros Hg Hne Hf _. rewrite (amount_value_digits g f Hg Hne Hf).
  cbn [cell_double double_of]. f_equal.
  destruct (length f) as [|k].
  - cbn [Z.of_nat Z.opp Z.leb Z.compare]. now rewrite Z.pow_0_r, Z.mul_1_r.
  - destruct (Z.leb_spec 0 (- Z.of_nat (S k))) as [Hle|_]; [lia|].
    now rewrite Z.opp_involutive.
Qed.

End AmountParsing.

Example double_of_literals :
  List.map (fun s => double_of (parseFloat (lit s)))
    ["1234.56"; "0.1"; "12.5"; "1e23"; "9007199254740993";
     "9007199254740995"; "1.7976931348623157e308";
     "1.797693134862315809e308"; "5e-324"; "2.4703282292062328e-324";
     "1e-400"; "-0"]%string
  = [DFinite false 5429652300748554 (-42);
     DFinite false 7205759403792794 (-56);
     DFinite false 7036874417766400 (-49);
     DFinite false 5960464477539062 24;
     DFinite false 4503599627370496 1;
     DFinite false 4503599627370498 1;
     DFinite false 9007199254740991 971;
     DInfinity false;
     DFinite false 1 (-1074);
     DFinite false 1 (-1074);
     DFinite false 0 0;
     DFinite true 0 0].
Proof. vm_compute. reflexivity. Qed.

Example amount_beyond_2_53 :
  cell_double (amount_value (lit "9.007.199.254.740.993,00"))
  = Some (DFinite false 4503599627370496 1).
Proof. vm_compute. reflexivity. Qed.

Lemma amount_value_decimal_comma_witness :
  cell_double (amount_value (lit "1.234.567" ++ ch "," :: lit "89"))
  = Some (DFinite false 5302428712241725 (-32)).
Proof.
  apply (amount_value_decimal_comma (lit "1.234.567") (lit "89")).
  - repeat constructor; (left; reflexivity) || (right; reflexivity).
  - vm_compute. discriminate.
  - repeat constructor.
  - vm_compute. lia.
Defined.

(** ** The shell: one flow at a time, and what is shown *)

Section ShellFurther.

Context {E : Engine}.
Variable prompt : jsstring.

(** From [Some r = Some (c', effs)] to a goal about [fst r]. *)
Ltac result_config :=
  let H := fresh "Hstep" in
  intros H; apply (f_equal (option_map fst)) in H;
  cbn [option_map fst] in H; injection H as H; rewrite <- H; clear H.

Lemma run_events_reachable (sh : shell) (evs : list event) :
  forall c c' effs,
    reachable prompt sh c ->
    run_events prompt sh c evs = Some (c', effs) ->
    reachable prompt sh c'.
Proof.
  induction evs as [|ev evs IH]; intros c c' effs Hr; cbn [run_events].
  - now intros [= <- _].
  - destruct (step prompt sh c ev) as [[c1 effs1]|] eqn:Hstep;
      [|discriminate].
    destruct (run_events prompt sh c1 evs) as [[c2 effs2]|] eqn:Hrun;
      [|discriminate].
    intros [= <- _]. eapply IH; [|exact Hrun].
    eapply reach_step; eauto.
Qed.

Lemma has_rows_truthy (v : json) : has_rows v = Some true -> truthy v = true.
Proof. unfold has_rows. destruct (truthy v); [reflexivity | discriminate]. Qed.

Lemma dropzone_no_data (c : config) :
  results_valid c -> DropApp.renderContent (app c) = DropApp.Dropzone ->
  data (app c) = None.
Proof.
  intros Hv Hview. destruct (data (app c)) as [v|] eqn:Hd; [|reflexivity].
  destruct (Hv v Hd) as (Hrows & He & Hl).
  apply has_rows_truthy in Hrows.
  unfold DropApp.renderContent in Hview.
  rewrite Hl, He, Hd, Hrows in Hview. discriminate.
Qed.

Lemma complete_results_valid (c : config) (ev : event) (c' : config)
    (effs : list effect) :
  consistent c -> complete prompt c ev = Some (c', effs) ->
  results_valid c'.
Proof.
  unfold complete, consistent.
  destruct (inflight c) as [[f|f req k]|]; [| |discriminate].
  - intros (Hl & He & Hd). destruct ev as [| | | | | | |[result|]|];
      try discriminate; result_config; intros v; cbn; rewrite Hd;
      discriminate.
  - intros (Hl & He & Hd & ->). destruct ev; try discriminate.
    result_config. intros v. cbn. unfold after_extract.
    destruct (settle response) as [extracted|err]; cbn.
    + destruct (has_rows extracted) as [[|]|] eqn:Hrows; cbn;
        rewrite ?Hd; try discriminate.
      intros [= <-]. now rewrite He.
    + rewrite Hd. discriminate.
Qed.

Lemma step_results_valid (sh : shell) (c : config) (ev : event)
    (c' : config) (effs : list effect) :
  consistent c -> results_valid c ->
  step prompt sh c ev = Some (c', effs) -> results_valid c'.
Proof.
  intros Hc Hv. destruct sh; cbn [step].
  - unfold App.step. destruct ev; try discriminate.
    + destruct (loading (app c)); [discriminate|].
      result_config. intros v. destruct threw; discriminate.
    + destruct (data (app c)); [|discriminate]. now result_config.
    + now apply complete_results_valid.
    + now apply complete_results_valid.
  - unfold DropApp.step.
    destruct ev; try (now apply complete_results_valid);
      destruct (DropApp.renderContent (app c)) eqn:Hview; try discriminate;
      result_config; try exact Hv; intros v; cbn;
      try discriminate;
      try (rewrite (dropzone_no_data c Hv Hview); discriminate).
    + unfold DropApp.handleFileChange, DropApp.processFile.
      destruct (negb _); cbn;
        [rewrite (dropzone_no_data c Hv Hview) | destruct threw];
        discriminate.
    + unfold DropApp.handleDrop, DropApp.processFile.
      destruct (negb _); cbn;
        [rewrite (dropzone_no_data c Hv Hview) | destruct threw];
        discriminate.
Qed.

Lemma reachable_results_valid (sh : shell) (c : config) :
  reachable prompt sh c -> results_valid c.
Proof.
  induction 1 as [|c ev c' effs Hr IH Hstep]; [intros v; discriminate|].
  eapply step_results_valid; eauto using reachable_consistent.
Qed.

(** X9. In either shell, whatever is held in [data] is a value the last
    extraction returned and that passed the test
    [extracted && extracted.length > 0]; while it is held no error is
    set, the shell is not loading and no flow is in flight. Results and
    an error are never shown together, and never an empty array. *)
Theorem shown_data_passed_test (sh : shell) (c : config) (rows : json) :
  reachable prompt sh c ->
  data (app c) = Some rows ->
  has_rows rows = Some true /\ rows <> JArray []
  /\ error (app c) = None /\ loading (app c) = false
  /\ inflight c = None.
Proof.
  intros Hr Hd.
  destruct (reachable_results_valid sh c Hr rows Hd) as (Hrows & He & Hl).
  repeat split; try assumption.
  - intros ->. discriminate.
  - now apply consistent_not_loading; [apply (reachable_consistent prompt sh)|].
Qed.

(** X10. While a flow is in flight nothing but its own completion can
    happen: no file can be selected or dropped, nothing can be reset or
    downloaded, so a second extraction never starts before the first
    has ended. *)
Theorem one_flow_at_a_time (sh : shell) (c : config) (ev : event)
    (c' : config) (effs : list effect) :
  reachable prompt sh c ->
  inflight c <> None ->
  step prompt sh c ev = Some (c', effs) ->
  (exists r, ev = ReadDone r) \/ (exists response, ev = ModelDone response).
Proof.
  intros Hr Hi Hstep.
  pose proof (reachable_consistent prompt sh c Hr) as Hc.
  assert (Hl : loading (app c) = true).
  { destruct (loading (app c)) eqn:Hl; [reflexivity|].
    now apply consistent_not_loading in Hl. }
  rewrite (loading_only_completes prompt sh c ev Hc Hl) in Hstep.
  unfold complete in Hstep.
  destruct (inflight c) as [[f|f req k]|]; [| |discriminate];
    destruct ev; try discriminate; eauto.
Qed.

End ShellFurther.

(** ** The shell: accepting files, showing failures, resetting *)

Section ShellViews.

Context {E : Engine}.
Variable prompt : jsstring.

Lemma jsstring_eqb_eq (a b : jsstring) : jsstring_eqb a b = true <-> a = b.
Proof.
  revert b. induction a as [|x a IH]; intros [|y b]; cbn;
    try (split; [discriminate | congruence]); [tauto|].
  rewrite andb_true_iff, N.eqb_eq, IH. split.
  - now intros [-> ->].
  - now intros [= -> ->].
Qed.

(** X11. The check of the declared type is an exact comparison, letter
    case included, with four strings: the types of PDF, PNG and JPEG and
    the unregistered spelling image/jpg. *)
Theorem accepted_types_exact (t : jsstring) :
  DropApp.accepted t = true
  <-> t = lit "application/pdf" \/ t = lit "image/png"
      \/ t = lit "image/jpeg" \/ t = lit "image/jpg".
Proof.
  unfold DropApp.accepted, DropApp.acceptedTypes. cbn [existsb].
  rewrite !orb_true_iff, !jsstring_eqb_eq. intuition discriminate.
Qed.

(** X12. In the shell with the drop zone, selecting or dropping a file
    of an accepted type while the drop zone is shown clears the previous
    state, records the file name, switches to loading and starts exactly
    one read of that file; a drop also ends the dragging highlight. *)
Theorem accepted_file_starts_read (c : config) (file : File) (ev : event) :
  DropApp.renderContent (app c) = DropApp.Dropzone ->
  DropApp.accepted (type file) = true ->
  ev = Select file None \/ ev = Drop file None ->
  step prompt WithDropzone c ev
  = Some ({| app := {| data := None; loading := true; error := None;
                       fileName := Some (name file);
                       isDragging := match ev with
                                     | Drop _ _ => false
                                     | _ => isDragging (app c)
                                     end |};
             inflight := Some (Reading file) |},
          [ReadAsDataURL file]).
Proof.
  intros Hview Hacc [-> | ->]; cbn [step]; unfold DropApp.step;
    rewrite Hview;
    unfold DropApp.handleFileChange, DropApp.handleDrop, DropApp.processFile;
    rewrite Hacc; reflexivity.
Qed.

(** X13. When creating the reader or starting the read throws, the
    outer [catch] shows the message thrown (or a fixed one when what is
    thrown is no [Error]), the shell stops loading, and no read or call
    is pending. *)
Theorem read_start_failure (sh : shell) (c : config) (file : File)
    (err : thrown) (c' : config) (effs : list effect) :
  step prompt sh c (Select file (Some err)) = Some (c', effs) ->
  (sh = WithDropzone -> DropApp.accepted (type file) = true) ->
  phase_of (app c')
  = Error (match err with
           | ErrorObject message => message
           | NotAnError => lit "An unexpected error occurred."
           end)
  /\ effs = [] /\ inflight c' = None.
Proof.
  destruct sh; cbn [step].
  - unfold App.step. destruct (loading (app c)); [discriminate|].
    intros [= <- <-] _. destruct err; repeat split.
  - unfold DropApp.step.
    destruct (DropApp.renderContent (app c)); try discriminate.
    unfold DropApp.handleFileChange, DropApp.processFile.
    intros H Hacc. rewrite (Hacc eq_refl) in H. injection H as <- <-.
    destruct err; repeat split.
Qed.

Lemma settle_thrown_message (response : outcome) (e : thrown) :
  settle response = Thrown e ->
  exists c m, e = ErrorObject (c :: m).
Proof.
  unfold settle. destruct (try_block response) as [err|v]; [|discriminate].
  intros [= <-]. unfold catch_block. destruct err as [m|].
  - destruct (includes _ _); eexists _, _; reflexivity.
  - eexists _, _; reflexivity.
Qed.

(** X14. When the extraction throws, either shell ends the flow on its
    error display with exactly the message thrown, which is never empty:
    the shell with the drop zone shows the error panel with the retry
    button, the shell of src/App.tsx shows the error status; no data is
    kept and nothing is in flight. *)
Theorem extraction_failure_shown (sh : shell) (c : config)
    (response : outcome) (e : thrown) (c' : config) (effs : list effect) :
  reachable prompt sh c ->
  settle response = Thrown e ->
  step prompt sh c (ModelDone response) = Some (c', effs) ->
  exists message,
    e = ErrorObject message /\ message <> []
    /\ DropApp.renderContent (app c') = DropApp.ErrorPanel message
    /\ StatusDisplay (app c') = StatusError message
    /\ data (app c') = None /\ inflight c' = None /\ effs = [].
Proof.
  intros Hr Hsettle Hstep.
  pose proof (reachable_consistent prompt sh c Hr) as Hc.
  assert (Hcomplete : complete prompt c (ModelDone response)
                      = Some (c', effs)).
  { destruct sh; cbn [step] in Hstep; [exact Hstep|].
    unfold DropApp.step in Hstep.
    destruct (DropApp.renderContent (app c)); exact Hstep. }
  unfold complete in Hcomplete. unfold consistent in Hc.
  destruct (inflight c) as [[f|f req k]|]; try discriminate.
  destruct Hc as (Hl & He & Hd & ->).
  injection Hcomplete as <- <-. cbn.
  destruct (settle_thrown_message response e Hsettle) as (x & m & ->).
  exists (x :: m). rewrite Hsettle. cbn. rewrite Hd.
  repeat split; discriminate.
Qed.

(** X15. In the shell with the drop zone the error panel stays until the
    user resets: the only thing that can happen while it is shown is the
    retry button, which clears data, error and file name and brings the
    drop zone back without starting anything. *)
Theorem error_panel_until_reset (c : config) (message : jsstring)
    (ev : event) (c' : config) (effs : list effect) :
  reachable prompt WithDropzone c ->
  DropApp.renderContent (app c) = DropApp.ErrorPanel message ->
  step prompt WithDropzone c ev = Some (c', effs) ->
  ev = Reset /\ effs = [] /\ inflight c' = None
  /\ DropApp.renderContent (app c') = DropApp.Dropzone
  /\ data (app c') = None /\ error (app c') = None
  /\ fileName (app c') = None.
Proof.
  intros Hr Hview Hstep.
  pose proof (reachable_consistent prompt _ c Hr) as Hc.
  assert (Hl : loading (app c) = false)
    by (apply loading_false_unless_spinner; congruence).
  pose proof (consistent_not_loading c Hc Hl) as Hi.
  cbn [step] in Hstep. unfold DropApp.step, complete in Hstep.
  rewrite Hview, Hi in Hstep.
  destruct ev; try discriminate. injection Hstep as <- <-.
  cbn. repeat split; reflexivity.
Qed.

(** X16. While results are shown in the shell with the drop zone, only
    two things can happen: the download, which hands the rows held in
    [data] to the export and changes nothing, and the reset, which brings
    the drop zone back with a cleared state. *)
Theorem results_download_or_reset (c : config) (rows : json)
    (ev : event) (c' : config) (effs : list effect) :
  reachable prompt WithDropzone c ->
  DropApp.renderContent (app c) = DropApp.Results rows ->
  step prompt WithDropzone c ev = Some (c', effs) ->
  data (app c) = Some rows
  /\ ((ev = Download /\ c' = c /\ effs = [DownloadExcel rows])
      \/ (ev = Reset /\ effs = [] /\ inflight c' = None
          /\ DropApp.renderContent (app c') = DropApp.Dropzone
          /\ data (app c') = None /\ fileName (app c') = None)).
Proof.
  intros Hr Hview Hstep.
  pose proof (reachable_consistent prompt _ c Hr) as Hc.
  assert (Hl : loading (app c) = false)
    by (apply loading_false_unless_spinner; congruence).
  pose proof (consistent_not_loading c Hc Hl) as Hi.
  split.
  - unfold DropApp.renderContent in Hview. rewrite Hl in Hview.
    destruct (error (app c)) as [[|x m]|]; try discriminate;
      destruct (data (app c)) as [v|]; try discriminate;
      destruct (truthy v); try discriminate; now injection Hview as ->.
  - cbn [step] in Hstep. unfold DropApp.step, complete in Hstep.
    rewrite Hview, Hi in Hstep.
    destruct ev; try discriminate; injection Hstep as <- <-.
    + right. cbn. repeat split; reflexivity.
    + left. auto.
Qed.


(** X18. On a reachable page of the shell of src/App.tsx whose data is
    unset or an array of journal rows, exactly one of four things is
    displayed: without data the status display shows the spinner, the
    error or the prompt to upload and the table block is left out; with
    a row array, which is then never empty, the table block is rendered
    for it and the status display renders nothing. Pages whose data is
    anything else are left out. *)
Theorem App_status_or_table (c : config) :
  reachable prompt AppTsx c ->
  match data (app c) with
  | None =>
      table_block (app c) = None /\ StatusDisplay (app c) <> StatusNothing
  | Some extracted =>
      forall rows, as_rows extracted = Some rows ->
        table_block (app c) = Some extracted /\ rows <> []
        /\ StatusDisplay (app c) = StatusNothing
  end.
Proof.
  intros Hr. pose proof (reachable_results_valid prompt _ c Hr) as Hv.
  unfold table_block, StatusDisplay.
  destruct (data (app c)) as [v|] eqn:Hd.
  - destruct (Hv v Hd) as (Hrows & He & Hl). intros rows Has.
    rewrite (as_rows_has_rows _ _ Has) in Hrows.
    destruct v as [| | | |l|]; try discriminate.
    rewrite Hl, He. cbn. repeat split.
    intros ->. discriminate.
  - split; [reflexivity|].
    destruct (loading (app c)); [discriminate|].
    destruct (error (app c)) as [[|x m]|]; cbn; discriminate.
Qed.

End ShellViews.

Lemma run_events_reaches (sh : shell) (evs : list event) (c : config) :
  fst <$> run_events (E := sample_engine) (lit "prompt") sh start evs
  = Some c ->
  reachable (E := sample_engine) (lit "prompt") sh c.
Proof.
  destruct (run_events _ sh start evs) as [[c' effs]|] eqn:Hrun;
    [|discriminate].
  intros [= <-].
  eapply run_events_reachable; [apply reach_start | exact Hrun].
Qed.

Lemma awaiting_model_reachable (sh : shell) :
  reachable (E := sample_engine) (lit "prompt") sh awaiting_model.
Proof.
  apply (run_events_reaches sh
           [Select sample_file None; ReadDone (Loaded sample_url)]).
  destruct sh; vm_compute; reflexivity.
Qed.

Lemma shown_row_reachable (sh : shell) :
  reachable (E := sample_engine) (lit "prompt") sh shown_row.
Proof.
  apply (run_events_reaches sh
           [Select sample_file None; ReadDone (Loaded sample_url);
            ModelDone (Resolved (Some row_text))]).
  destruct sh; vm_compute; reflexivity.
Qed.

Lemma shown_failure_reachable (sh : shell) :
  reachable (E := sample_engine) (lit "prompt") sh shown_failure.
Proof.
  apply (run_events_reaches sh
           [Select sample_file None; ReadDone (Loaded sample_url);
            ModelDone (Resolved (Some (lit "not json")))]).
  destruct sh; vm_compute; reflexivity.
Qed.

Lemma shown_data_passed_test_witness :
  has_rows sample_rows = Some true /\ sample_rows <> JArray []
  /\ error (app shown_row) = None /\ loading (app shown_row) = false
  /\ inflight shown_row = None.
Proof.
  apply (shown_data_passed_test (E := sample_engine) (lit "prompt")
           WithDropzone shown_row sample_rows).
  - apply shown_row_reachable.
  - reflexivity.
Defined.

Lemma one_flow_at_a_time_witness :
  (exists r, ModelDone (Resolved (Some row_text)) = ReadDone r)
  \/ (exists response,
        ModelDone (Resolved (Some row_text)) = ModelDone response).
Proof.
  apply (one_flow_at_a_time (E := sample_engine) (lit "prompt")
           WithDropzone awaiting_model
           (ModelDone (Resolved (Some row_text))) shown_row []).
  - apply awaiting_model_reachable.
  - discriminate.
  - vm_compute. reflexivity.
Defined.

Lemma accepted_file_starts_read_witness :
  step (E := sample_engine) (lit "prompt") WithDropzone start
    (Drop sample_file None)
  = Some ({| app := {| data := None; loading := true; error := None;
                       fileName := Some (lit "scan.png");
                       isDragging := false |};
             inflight := Some (Reading sample_file) |},
          [ReadAsDataURL sample_file]).
Proof.
  apply (accepted_file_starts_read (E := sample_engine) (lit "prompt")
           start sample_file (Drop sample_file None)).
  - reflexivity.
  - reflexivity.
  - right. reflexivity.
Defined.

Lemma read_start_failure_witness :
  phase_of (app shown_start_failure) = Error (lit "The object can not be read")
  /\ @nil effect = [] /\ inflight shown_start_failure = None.
Proof.
  apply (read_start_failure (E := sample_engine) (lit "prompt")
           AppTsx start sample_file
           (ErrorObject (lit "The object can not be read"))
           shown_start_failure []).
  - reflexivity.
  - discriminate.
Defined.

Lemma extraction_failure_shown_witness :
  exists message,
    ErrorObject (lit "The AI returned an invalid format. Please try a clearer image or a different file.")
    = ErrorObject message
    /\ message <> []
    /\ DropApp.renderContent (app shown_failure) = DropApp.ErrorPanel message.
Proof.
  destruct (extraction_failure_shown (E := sample_engine) (lit "prompt")
              WithDropzone awaiting_model
              (Resolved (Some (lit "not json")))
              (ErrorObject (lit "The AI returned an invalid format. Please try a clearer image or a different file."))
              shown_failure [])
    as (message & H1 & H2 & H3 & _).
  - apply awaiting_model_reachable.
  - vm_compute. reflexivity.
  - vm_compute. reflexivity.
  - exists message. repeat split; assumption.
Defined.

Lemma error_panel_until_reset_witness :
  Reset = Reset /\ @nil effect = [] /\ inflight start = None
  /\ DropApp.renderContent (app start) = DropApp.Dropzone
  /\ data (app start) = None /\ error (app start) = None
  /\ fileName (app start) = None.
Proof.
  apply (error_panel_until_reset (E := sample_engine) (lit "prompt")
           shown_failure
           (lit "The AI returned an invalid format. Please try a clearer image or a different file.")
           Reset start []).
  - apply shown_failure_reachable.
  - reflexivity.
  - reflexivity.
Defined.

Lemma results_download_or_reset_witness :
  data (app shown_row) = Some sample_rows
  /\ ((Download = Download /\ shown_row = shown_row
       /\ [DownloadExcel sample_rows] = [DownloadExcel sample_rows])
      \/ (Download = Reset /\ [DownloadExcel sample_rows] = []
          /\ inflight shown_row = None
          /\ DropApp.renderContent (app shown_row) = DropApp.Dropzone
          /\ data (app shown_row) = None
          /\ fileName (app shown_row) = None)).
Proof.
  apply (results_download_or_reset (E := sample_engine) (lit "prompt")
           shown_row sample_rows Download shown_row
           [DownloadExcel sample_rows]).
  - apply shown_row_reachable.
  - reflexivity.
  - reflexivity.
Defined.


Lemma App_status_or_table_witness :
  table_block (app shown_row) = Some sample_rows
  /\ [sample_row (lit "12,50") []] <> []
  /\ StatusDisplay (app shown_row) = StatusNothing.
Proof.
  apply (App_status_or_table (E := sample_engine) (lit "prompt") shown_row
           (shown_row_reachable AppTsx) [sample_row (lit "12,50") []]).
  reflexivity.
Defined.

(** ** From the read to the request, dragging, and the table *)

Section ReadAndTable.

Context {E : Engine}.
Variable prompt : jsstring.

Lemma until_comma_none (s : jsstring) :
  Forall (fun c => c <> ch ",") s -> until_comma s = (s, None).
Proof.
  induction 1 as [|c s Hc _ IH]; [reflexivity|].
  cbn [until_comma]. apply N.eqb_neq in Hc. now rewrite Hc, IH.
Qed.

Lemma until_comma_app (p r : jsstring) :
  Forall (fun c => c <> ch ",") p ->
  until_comma (p ++ ch "," :: r) = (p, Some r).
Proof.
  induction 1 as [|c p Hc _ IH]; cbn [Datatypes.app until_comma].
  - now rewrite N.eqb_refl.
  - apply N.eqb_neq in Hc. now rewrite Hc, IH.
Qed.

(** X19. When the read of the file completes, the shell calls the model
    once and stays loading. What it sends is the part of the data URL
    after its first comma, the base64 payload, with the declared type of
    the file, the instruction text and the model name gemini-2.5-flash;
    when the result of the read holds no comma the call is made all the
    same, without data. *)
Theorem read_result_sent_to_model (sh : shell) (c : config) (file : File)
    (before payload : jsstring) :
  inflight c = Some (Reading file) ->
  Forall (fun x => x <> ch ",") before ->
  Forall (fun x => x <> ch ",") payload ->
  let req data :=
    {| model := lit "gemini-2.5-flash";
       text_part := prompt;
       file_part := {| inlineData_data := data;
                       inlineData_mimeType := type file |};
       responseMimeType := lit "application/json";
       schema_properties :=
         [lit "date"; lit "compteGeneral"; lit "compteTier";
          lit "libelle"; lit "debit"; lit "credit"];
       schema_required :=
         [lit "date"; lit "compteGeneral"; lit "compteTier";
          lit "libelle"; lit "debit"; lit "credit"] |} in
  (exists k,
     step prompt sh c (ReadDone (Loaded (before ++ ch "," :: payload)))
     = Some ({| app := app c;
                inflight := Some (Calling file (req (Some payload)) k) |},
             [ModelCall (req (Some payload))]))
  /\ (exists k,
        step prompt sh c (ReadDone (Loaded payload))
        = Some ({| app := app c;
                   inflight := Some (Calling file (req None) k) |},
                [ModelCall (req None)])).
Proof.
  intros Hi Hb Hp req.
  assert (Hstep : forall r, step prompt sh c (ReadDone r)
                            = complete prompt c (ReadDone r)).
  { intros r. destruct sh; cbn [step]; [reflexivity|].
    unfold DropApp.step. now destruct (DropApp.renderContent (app c)). }
  assert (H1 : split_comma_1 (before ++ ch "," :: payload) = Some payload).
  { unfold split_comma_1. rewrite (until_comma_app _ _ Hb). cbn [snd].
    now rewrite (until_comma_none _ Hp). }
  assert (H2 : split_comma_1 payload = None).
  { unfold split_comma_1. now rewrite (until_comma_none _ Hp). }
  split; eexists; rewrite Hstep; unfold complete; rewrite Hi;
    unfold onload; rewrite ?H1, ?H2; reflexivity.
Qed.

(** X20. Dragging over the drop zone only switches its highlight: the
    three drag handlers can run only while the drop zone is shown, start
    nothing, and leave data, error, file name and the drop zone itself as
    they are. *)
Theorem drag_changes_only_highlight (c : config) (ev : event)
    (c' : config) (effs : list effect) :
  ev = DragEnter \/ ev = DragLeave \/ ev = DragOver ->
  step prompt WithDropzone c ev = Some (c', effs) ->
  DropApp.renderContent (app c) = DropApp.Dropzone
  /\ DropApp.renderContent (app c') = DropApp.Dropzone
  /\ effs = [] /\ inflight c' = inflight c
  /\ data (app c') = data (app c) /\ error (app c') = error (app c)
  /\ loading (app c') = loading (app c)
  /\ fileName (app c') = fileName (app c)
  /\ isDragging (app c')
     = match ev with
       | DragEnter => true
       | DragLeave => false
       | _ => isDragging (app c)
       end.
Proof.
  intros Hev. cbn [step]. unfold DropApp.step.
  destruct (DropApp.renderContent (app c)) eqn:Hview;
    destruct Hev as [-> | [-> | ->]]; try discriminate;
    intros [= <- <-]; cbn; repeat split; try exact Hview.
Qed.

(** X21. The table renders one row per journal row, in the order of the
    array and keyed by the index, and shows the six strings as they were
    extracted, the amounts unparsed; the first four cells of a table row
    are the texts the export writes to the same row of the sheet. *)
Theorem table_rows_match_sheet (data : list StatementRow) (i : nat)
    (row : StatementRow) :
  data !! i = Some row ->
  length (tbody (DataTable data)) = length data
  /\ tbody (DataTable data) !! i
     = Some {| tr_key := i;
               tr_cells :=
                 [plain (date row); plain (compteGeneral row);
                  plain (compteTier row);
                  {| td_title := Some (libelle row);
                     td_text := libelle row |};
                  plain (debit row); plain (credit row)] |}
  /\ forall C text,
       (C < 4)%nat ->
       [date row; compteGeneral row; compteTier row; libelle row;
        debit row; credit row] !! C = Some text ->
       cell_at (handleDownloadExcel (Some data)) (S i) C
       = Some {| cell_t := T_s; cell_v := VStr text; cell_z := None |}.
Proof.
  intros Hi. cbn [DataTable tbody]. split; [apply length_imap|].
  split; [now rewrite list_lookup_imap, Hi|].
  intros C text HC Htext. rewrite export_cell. cbn [expected_cell].
  rewrite Hi.
  destruct C as [|[|[|[|C]]]]; try lia; cbn in Htext;
    injection Htext as <-; reflexivity.
Qed.

End ReadAndTable.

Lemma read_result_sent_to_model_witness :
  exists req k,
    step (E := sample_engine) (lit "prompt") WithDropzone
      (fst (start_read sample_file None initial))
      (ReadDone (Loaded (lit "data:image/png;base64" ++ ch "," :: lit "aGk=")))
    = Some ({| app := app (fst (start_read sample_file None initial));
               inflight := Some (Calling sample_file req k) |},
            [ModelCall req])
    /\ file_part req = {| inlineData_data := Some (lit "aGk=");
                          inlineData_mimeType := lit "image/png" |}.
Proof.
  destruct (read_result_sent_to_model (E := sample_engine) (lit "prompt")
              WithDropzone (fst (start_read sample_file None initial))
              sample_file (lit "data:image/png;base64") (lit "aGk="))
    as ((k & Hk) & _).
  - reflexivity.
  - repeat constructor; discriminate.
  - repeat constructor; discriminate.
  - eexists _, k. split; [exact Hk | reflexivity].
Defined.

Lemma drag_changes_only_highlight_witness :
  isDragging
    (app {| app := setIsDragging true initial; inflight := None |})
  = true.
Proof.
  apply (drag_changes_only_highlight (E := sample_engine) (lit "prompt")
           start DragEnter
           {| app := setIsDragging true initial; inflight := None |} []).
  - left. reflexivity.
  - reflexivity.
Defined.

Lemma table_rows_match_sheet_witness :
  length (tbody (DataTable [sample_row (lit "12,50") []])) = 1%nat.
Proof.
  apply (table_rows_match_sheet [sample_row (lit "12,50") []] 0
           (sample_row (lit "12,50") [])).
  reflexivity.
Defined.
